(** * Realtime session synchronisation: the session store and its producers

    A shallow embedding of the zustand session store (session.store.ts), of
    the push-channel hook (hooks/useWebSocket.ts) and of the audio metric
    poller (hooks/useAudioMetrics.ts).

    Conventions.
    - A JavaScript [number] is carried around opaquely by the store (copied,
      compared with zero by [||]); it is modelled by an exact rational.
    - [Record<string, number>] is a finite map from strings.
    - [Partial<T>] is a record of options: [None] is an absent key, [Some v]
      a present key holding [v].
    - zustand's [set(patch)] replaces the named top-level slots of the store
      and keeps the others; it is modelled by explicit record updates. *)

From Stdlib Require Import QArith.
From stdpp Require Import base option list gmap strings pretty.

Local Open Scope string_scope.

Abbreviation number := Q (only parsing).

(** ** JavaScript's [x || d] on the value shapes the code applies it to *)

Definition falsy_number (x : number) : bool := Qeq_bool x 0.

(** [x as number || 0], where [x] may be missing on the wire. *)
Definition num_or (x : option number) (d : number) : number :=
  match x with
  | Some v => if falsy_number v then d else v
  | None => d
  end.

(** [x as string || d]: the empty string is falsy. *)
Definition str_or (x : option string) (d : string) : string :=
  match x with
  | Some v => if String.eqb v "" then d else v
  | None => d
  end.

(** [x as boolean || d]. *)
Definition bool_or (x : option bool) (d : bool) : bool :=
  match x with
  | Some v => v || d
  | None => d
  end.

(** [x || d] for an object-valued [x]: every object is truthy. *)
Definition obj_or {A} (x : option A) (d : A) : A := default d x.

(** ** Realtime state types *)

Module AudioStatus.
Inductive t := idle | recording | processing | done | error.
End AudioStatus.

Module AudioState.
Record t := mk {
  amplitude : number;
  isSpeech : bool;
  duration : number;
  status : AudioStatus.t;
  totalFrames : number;
  speechFrames : number;
  error : option string;
}.

Module Partial.
Record t := mk {
  amplitude : option number;
  isSpeech : option bool;
  duration : option number;
  status : option AudioStatus.t;
  totalFrames : option number;
  speechFrames : option number;
  error : option (option string);
}.
Definition empty : t := mk None None None None None None None.
End Partial.

(** [{ ...v, ...p }] *)
Definition spread (v : t) (p : Partial.t) : t :=
  {| amplitude := default (amplitude v) (Partial.amplitude p);
     isSpeech := default (isSpeech v) (Partial.isSpeech p);
     duration := default (duration v) (Partial.duration p);
     status := default (status v) (Partial.status p);
     totalFrames := default (totalFrames v) (Partial.totalFrames p);
     speechFrames := default (speechFrames v) (Partial.speechFrames p);
     error := default (error v) (Partial.error p) |}.
End AudioState.

Module VideoState.
Record t := mk {
  faceCount : number;
  dominantEmotion : string;
  confidence : number;
  totalFrames : number;
  duration : number;
  emotionCounts : gmap string number;
  isRecording : bool;
}.

Module Partial.
Record t := mk {
  faceCount : option number;
  dominantEmotion : option string;
  confidence : option number;
  totalFrames : option number;
  duration : option number;
  emotionCounts : option (gmap string number);
  isRecording : option bool;
}.
Definition empty : t := mk None None None None None None None.
End Partial.

Definition spread (v : t) (p : Partial.t) : t :=
  {| faceCount := default (faceCount v) (Partial.faceCount p);
     dominantEmotion := default (dominantEmotion v) (Partial.dominantEmotion p);
     confidence := default (confidence v) (Partial.confidence p);
     totalFrames := default (totalFrames v) (Partial.totalFrames p);
     duration := default (duration v) (Partial.duration p);
     emotionCounts := default (emotionCounts v) (Partial.emotionCounts p);
     isRecording := default (isRecording v) (Partial.isRecording p) |}.
End VideoState.

Module AgentState.
(** [finalState] is declared ['SATISFIED' | 'NEUTRAL' | 'DISSATISFIED' | null];
    [setFinalResult] stores a [string] into it through a type cast, so the
    value held at run time is an arbitrary string or [null]. *)
Record t := mk {
  finalState : option string;
  confidence : gmap string number;
  reasoning : list string;
  recommendation : string;
}.

Module Partial.
Record t := mk {
  finalState : option (option string);
  confidence : option (gmap string number);
  reasoning : option (list string);
  recommendation : option string;
}.
Definition empty : t := mk None None None None.
End Partial.

Definition spread (v : t) (p : Partial.t) : t :=
  {| finalState := default (finalState v) (Partial.finalState p);
     confidence := default (confidence v) (Partial.confidence p);
     reasoning := default (reasoning v) (Partial.reasoning p);
     recommendation := default (recommendation v) (Partial.recommendation p) |}.
End AgentState.

Module SessionStatus.
Inductive t := idle | recording | processing | complete | error.
End SessionStatus.

Module SessionMeta.
(** [startTime] is a [Date | null], held as its epoch milliseconds;
    [videoActive] and [audioActive] are optional keys. *)
Record t := mk {
  id : string;
  startTime : option number;
  status : SessionStatus.t;
  videoActive : option bool;
  audioActive : option bool;
}.

Module Partial.
Record t := mk {
  id : option string;
  startTime : option (option number);
  status : option SessionStatus.t;
  videoActive : option bool;
  audioActive : option bool;
}.
End Partial.

Definition spread (v : t) (p : Partial.t) : t :=
  {| id := default (id v) (Partial.id p);
     startTime := default (startTime v) (Partial.startTime p);
     status := default (status v) (Partial.status p);
     videoActive := match Partial.videoActive p with
                    | Some b => Some b | None => videoActive v end;
     audioActive := match Partial.audioActive p with
                    | Some b => Some b | None => audioActive v end |}.
End SessionMeta.

Module ConnectionState.
Record t := mk {
  isConnected : bool;
  isConnecting : bool;
  reconnectCount : number;
  lastError : option string;
}.

Module Partial.
Record t := mk {
  isConnected : option bool;
  isConnecting : option bool;
  reconnectCount : option number;
  lastError : option (option string);
}.
Definition empty : t := mk None None None None.
End Partial.

Definition spread (v : t) (p : Partial.t) : t :=
  {| isConnected := default (isConnected v) (Partial.isConnected p);
     isConnecting := default (isConnecting v) (Partial.isConnecting p);
     reconnectCount := default (reconnectCount v) (Partial.reconnectCount p);
     lastError := default (lastError v) (Partial.lastError p) |}.
End ConnectionState.

(** ** Legacy payload types *)

Module VideoStats.
Record t := mk {
  is_recording : bool;
  total_frames : number;
  duration_seconds : number;
  counts : gmap string number;
  current_emotion : string;
  current_confidence : number;
}.
End VideoStats.

Module LiveMetrics.
Record t := mk {
  amplitude : number;
  is_speech : bool;
  duration : number;
}.
End LiveMetrics.

Module FinalResult.
(** [reasoning] and [recommendation] are optional keys; [confidence] is
    read through [|| {}], so a frame that lacks it is tolerated too. *)
Record t := mk {
  final_state : string;
  confidence : option (gmap string number);
  reasoning : option (list string);
  recommendation : option string;
}.
End FinalResult.

Inductive TimelineEventType :=
  session_start | session_stop | emotion_spike
| speech_detected | face_detected | result_ready.

Module TimelineEvent.
Record t := mk {
  id : string;
  type : TimelineEventType;
  timestamp : number;
  data : option (gmap string string);
}.
End TimelineEvent.

Inductive Role := supervisor | qa_manager.

(** ** The store *)

Record SessionStore := mkStore {
  role : Role;
  session : SessionMeta.t;
  audio : AudioState.t;
  video : VideoState.t;
  agent : AgentState.t;
  connection : ConnectionState.t;
  isLoading : bool;
  error : option string;
  events : list TimelineEvent.t;
  videoStats : option VideoStats.t;
  audioMetrics : option LiveMetrics.t;
  finalResult : option FinalResult.t;
}.

(** *** Initial state *)

Definition initialAudio : AudioState.t :=
  {| AudioState.amplitude := 0;
     AudioState.isSpeech := false;
     AudioState.duration := 0;
     AudioState.status := AudioStatus.idle;
     AudioState.totalFrames := 0;
     AudioState.speechFrames := 0;
     AudioState.error := None |}.

Definition initialVideo : VideoState.t :=
  {| VideoState.faceCount := 0;
     VideoState.dominantEmotion := "neutral";
     VideoState.confidence := 0;
     VideoState.totalFrames := 0;
     VideoState.duration := 0;
     VideoState.emotionCounts := ∅;
     VideoState.isRecording := false |}.

Definition initialAgent : AgentState.t :=
  {| AgentState.finalState := None;
     AgentState.confidence := ∅;
     AgentState.reasoning := [];
     AgentState.recommendation := "" |}.

Definition initialSession : SessionMeta.t :=
  {| SessionMeta.id := "";
     SessionMeta.startTime := None;
     SessionMeta.status := SessionStatus.idle;
     SessionMeta.videoActive := Some false;
     SessionMeta.audioActive := Some false |}.

Definition initialConnection : ConnectionState.t :=
  {| ConnectionState.isConnected := false;
     ConnectionState.isConnecting := false;
     ConnectionState.reconnectCount := 0;
     ConnectionState.lastError := None |}.

(** The state [create] builds before any action has run. *)
Definition initialStore : SessionStore :=
  {| role := supervisor;
     session := initialSession;
     audio := initialAudio;
     video := initialVideo;
     agent := initialAgent;
     connection := initialConnection;
     isLoading := false;
     error := None;
     events := [];
     videoStats := None;
     audioMetrics := None;
     finalResult := None |}.

(** *** Slot updates: [set({ slot: v })] *)

Definition set_role r (s : SessionStore) : SessionStore :=
  mkStore r (session s) (audio s) (video s) (agent s) (connection s)
          (isLoading s) (error s) (events s) (videoStats s) (audioMetrics s)
          (finalResult s).
Definition set_session m (s : SessionStore) : SessionStore :=
  mkStore (role s) m (audio s) (video s) (agent s) (connection s)
          (isLoading s) (error s) (events s) (videoStats s) (audioMetrics s)
          (finalResult s).
Definition set_audio a (s : SessionStore) : SessionStore :=
  mkStore (role s) (session s) a (video s) (agent s) (connection s)
          (isLoading s) (error s) (events s) (videoStats s) (audioMetrics s)
          (finalResult s).
Definition set_video v (s : SessionStore) : SessionStore :=
  mkStore (role s) (session s) (audio s) v (agent s) (connection s)
          (isLoading s) (error s) (events s) (videoStats s) (audioMetrics s)
          (finalResult s).
Definition set_agent g (s : SessionStore) : SessionStore :=
  mkStore (role s) (session s) (audio s) (video s) g (connection s)
          (isLoading s) (error s) (events s) (videoStats s) (audioMetrics s)
          (finalResult s).
Definition set_connection c (s : SessionStore) : SessionStore :=
  mkStore (role s) (session s) (audio s) (video s) (agent s) c
          (isLoading s) (error s) (events s) (videoStats s) (audioMetrics s)
          (finalResult s).
Definition set_isLoading b (s : SessionStore) : SessionStore :=
  mkStore (role s) (session s) (audio s) (video s) (agent s) (connection s)
          b (error s) (events s) (videoStats s) (audioMetrics s)
          (finalResult s).
Definition set_error e (s : SessionStore) : SessionStore :=
  mkStore (role s) (session s) (audio s) (video s) (agent s) (connection s)
          (isLoading s) e (events s) (videoStats s) (audioMetrics s)
          (finalResult s).
Definition set_events l (s : SessionStore) : SessionStore :=
  mkStore (role s) (session s) (audio s) (video s) (agent s) (connection s)
          (isLoading s) (error s) l (videoStats s) (audioMetrics s)
          (finalResult s).
Definition set_videoStats x (s : SessionStore) : SessionStore :=
  mkStore (role s) (session s) (audio s) (video s) (agent s) (connection s)
          (isLoading s) (error s) (events s) x (audioMetrics s)
          (finalResult s).
Definition set_audioMetrics x (s : SessionStore) : SessionStore :=
  mkStore (role s) (session s) (audio s) (video s) (agent s) (connection s)
          (isLoading s) (error s) (events s) (videoStats s) x
          (finalResult s).
Definition set_finalResult x (s : SessionStore) : SessionStore :=
  mkStore (role s) (session s) (audio s) (video s) (agent s) (connection s)
          (isLoading s) (error s) (events s) (videoStats s) (audioMetrics s)
          x.

(** *** Actions *)

Definition setRole (r : Role) : SessionStore → SessionStore := set_role r.

Definition setSession (p : SessionMeta.Partial.t) (s : SessionStore) : SessionStore :=
  set_session (SessionMeta.spread (session s) p) s.

Definition resetSession (s : SessionStore) : SessionStore :=
  {| role := role s;
     session := initialSession;
     audio := initialAudio;
     video := initialVideo;
     agent := initialAgent;
     connection := connection s;
     isLoading := isLoading s;
     error := None;
     events := [];
     videoStats := None;
     audioMetrics := None;
     finalResult := None |}.

Definition setAudioState (p : AudioState.Partial.t) (s : SessionStore) : SessionStore :=
  set_audio (AudioState.spread (audio s) p) s.
Definition resetAudio : SessionStore → SessionStore := set_audio initialAudio.

Definition setVideoState (p : VideoState.Partial.t) (s : SessionStore) : SessionStore :=
  set_video (VideoState.spread (video s) p) s.
Definition resetVideo : SessionStore → SessionStore := set_video initialVideo.

Definition setAgentState (p : AgentState.Partial.t) (s : SessionStore) : SessionStore :=
  set_agent (AgentState.spread (agent s) p) s.
Definition resetAgent : SessionStore → SessionStore := set_agent initialAgent.

Definition setConnectionState (p : ConnectionState.Partial.t) (s : SessionStore)
  : SessionStore :=
  set_connection (ConnectionState.spread (connection s) p) s.

Definition setLoading (b : bool) : SessionStore → SessionStore := set_isLoading b.
Definition setError (e : option string) : SessionStore → SessionStore := set_error e.

(** [Array.prototype.slice(-k)]: the last [k] elements, all of them when the
    array is shorter. *)
Definition slice_last {A} (k : nat) (l : list A) : list A :=
  drop (length l - k) l.

Definition addEvent (e : TimelineEvent.t) (s : SessionStore) : SessionStore :=
  set_events (slice_last 49 (events s) ++ [e]) s.
Definition clearEvents : SessionStore → SessionStore := set_events [].

Definition setVideoStats (stats : option VideoStats.t) (s : SessionStore) : SessionStore :=
  let s1 := set_videoStats stats s in
  match stats with
  | Some st =>
      set_video
        {| VideoState.faceCount := 0;
           VideoState.dominantEmotion := VideoStats.current_emotion st;
           VideoState.confidence := VideoStats.current_confidence st;
           VideoState.totalFrames := VideoStats.total_frames st;
           VideoState.duration := VideoStats.duration_seconds st;
           VideoState.emotionCounts := VideoStats.counts st;
           VideoState.isRecording := VideoStats.is_recording st |} s1
  | None => s1
  end.

Definition setAudioMetrics (metrics : option LiveMetrics.t) (s : SessionStore)
  : SessionStore :=
  let s1 := set_audioMetrics metrics s in
  match metrics with
  | Some m =>
      set_audio
        {| AudioState.amplitude := LiveMetrics.amplitude m;
           AudioState.isSpeech := LiveMetrics.is_speech m;
           AudioState.duration := LiveMetrics.duration m;
           AudioState.status := AudioStatus.recording;
           AudioState.totalFrames := AudioState.totalFrames (audio s1);
           AudioState.speechFrames := AudioState.speechFrames (audio s1);
           AudioState.error := AudioState.error (audio s1) |} s1
  | None => s1
  end.

Definition setFinalResult (result : option FinalResult.t) (s : SessionStore)
  : SessionStore :=
  let s1 := set_finalResult result s in
  match result with
  | Some r =>
      set_agent
        {| AgentState.finalState := Some (FinalResult.final_state r);
           AgentState.confidence := obj_or (FinalResult.confidence r) ∅;
           AgentState.reasoning := obj_or (FinalResult.reasoning r) [];
           AgentState.recommendation := str_or (FinalResult.recommendation r) "" |} s1
  | None => s1
  end.

(** ** The push channel (hooks/useWebSocket.ts) *)

(** *** Inbound frames

    A frame is [{type, session_id, timestamp, data}].  The handler reads
    [data] through type casts, one shape per [type]; a decoded frame is
    therefore a tagged variant whose payload records, for every wire field
    the handler reads, whether the field is there.  A payload of [None] is
    a frame without a [data] object. *)

Module VideoStatsData.
Record t := mk {
  total_frames : option number;
  duration : option number;
  emotion_counts : option (gmap string number);
  dominant_emotion : option string;
  confidence : option number;
  face_count : option number;      (* read by the dashboard's callback *)
}.
Definition empty : t := mk None None None None None None.
End VideoStatsData.

Module AudioMetricsData.
Record t := mk {
  amplitude : option number;
  is_speech : option bool;
  duration : option number;
}.
End AudioMetricsData.

Module WSEvent.
Inductive t :=
| video_stats (data : option VideoStatsData.t)
| audio_metrics (data : option AudioMetricsData.t)
| audio_status (data : option (option string))
| session_completed
| final_result (data : option FinalResult.t)
| error (data : option (option string))
| connected
| heartbeat
| pong
| unhandled (type : string).   (* 'disconnected', 'session_state', ... *)
End WSEvent.

(** Heartbeat configuration. Counters of the hook are integers that only
    ever move by one, and are kept in [Z]; so are [Date.now()] readings. *)
Definition PING_INTERVAL : Z := 5000.
Definition MAX_MISSED_PONGS : Z := 3.

Module WebSocketConfig.
(** Callbacks act on the application state outside the hook, which is the
    session store.  [reconnectAttempts] and [reconnectInterval] already
    carry their defaults (5 and 2000). *)
Record t := mk {
  sessionId : string;
  autoConnect : bool;
  reconnectAttempts : Z;
  reconnectInterval : Z;
  onMessage : option (WSEvent.t → SessionStore → SessionStore);
  onConnect : option (SessionStore → SessionStore);
  onDisconnect : option (SessionStore → SessionStore);
  onError : option (SessionStore → SessionStore);
}.
End WebSocketConfig.

Module WebSocketState.
Record t := mk {
  isConnected : bool;
  isConnecting : bool;
  error : option string;
  lastMessage : option WSEvent.t;
  reconnectCount : Z;
  lastHeartbeat : option Z;
  missedPongs : Z;
}.
Definition initial : t := mk false false None None 0 None 0.
End WebSocketState.

Module ReadyState.
Inductive t := CONNECTING | OPEN | CLOSING | CLOSED.
End ReadyState.

(** A transport created by [connect].  Its handlers are closures of the
    render that created [connect], so they see the [state.reconnectCount]
    of that render: [seenReconnectCount]. *)
Module Socket.
Record t := mk {
  readyState : ReadyState.t;
  seenReconnectCount : Z;
}.
(** [WebSocket.close()]: a socket that is connecting or open starts
    closing, one that is closing or closed is left alone. *)
Definition close (k : t) : t :=
  match readyState k with
  | ReadyState.CONNECTING | ReadyState.OPEN =>
      mk ReadyState.CLOSING (seenReconnectCount k)
  | _ => k
  end.
Definition with_readyState (r : ReadyState.t) (k : t) : t :=
  mk r (seenReconnectCount k).
End Socket.

(** The hook's refs and React state, with the runtime objects they point
    into: every transport opened so far (the index is its identity) and the
    reconnect timeouts that are still pending, each with the
    [reconnectCount] its callback closes over. *)
Module Hook.
Record t := mk {
  sockets : list Socket.t;
  timeouts : gmap nat Z;
  nextTimeout : nat;
  pings : list nat;                  (* socket each ping frame went to *)
  wsRef : option nat;
  pingIntervalRef : bool;            (* an interval is installed *)
  reconnectTimeoutRef : option nat;
  shouldReconnectRef : bool;
  missedPongsRef : Z;
  state : WebSocketState.t;
}.
Definition initial : t :=
  mk [] ∅ 0 [] None false None true 0 WebSocketState.initial.
End Hook.

(** *** The audio metric poller (hooks/useAudioMetrics.ts) *)

Module Poller.
Record t := mk {
  intervalRef : bool;     (* an interval is installed *)
  inFlight : nat;         (* requests sent and not yet settled *)
}.
Definition initial : t := mk false 0.
End Poller.

(** Everything the callbacks can touch. *)
Record World := mkWorld {
  hook : Hook.t;
  poller : Poller.t;
  store : SessionStore;
}.

Definition initialWorld : World := mkWorld Hook.initial Poller.initial initialStore.

Definition with_hook (f : Hook.t → Hook.t) (w : World) : World :=
  mkWorld (f (hook w)) (poller w) (store w).
Definition with_poller (f : Poller.t → Poller.t) (w : World) : World :=
  mkWorld (hook w) (f (poller w)) (store w).
Definition with_store (f : SessionStore → SessionStore) (w : World) : World :=
  mkWorld (hook w) (poller w) (f (store w)).

(** [cb?.(...)] *)
Definition call (cb : option (SessionStore → SessionStore)) : World → World :=
  with_store (default id cb).

(** [setState((prev) => f prev)] *)
Definition setState (f : WebSocketState.t → WebSocketState.t) (h : Hook.t) : Hook.t :=
  Hook.mk (Hook.sockets h) (Hook.timeouts h) (Hook.nextTimeout h) (Hook.pings h)
          (Hook.wsRef h) (Hook.pingIntervalRef h) (Hook.reconnectTimeoutRef h)
          (Hook.shouldReconnectRef h) (Hook.missedPongsRef h) (f (Hook.state h)).

Definition set_missedPongsRef (n : Z) (h : Hook.t) : Hook.t :=
  Hook.mk (Hook.sockets h) (Hook.timeouts h) (Hook.nextTimeout h) (Hook.pings h)
          (Hook.wsRef h) (Hook.pingIntervalRef h) (Hook.reconnectTimeoutRef h)
          (Hook.shouldReconnectRef h) n (Hook.state h).

Definition set_pingIntervalRef (b : bool) (h : Hook.t) : Hook.t :=
  Hook.mk (Hook.sockets h) (Hook.timeouts h) (Hook.nextTimeout h) (Hook.pings h)
          (Hook.wsRef h) b (Hook.reconnectTimeoutRef h)
          (Hook.shouldReconnectRef h) (Hook.missedPongsRef h) (Hook.state h).

Definition set_shouldReconnectRef (b : bool) (h : Hook.t) : Hook.t :=
  Hook.mk (Hook.sockets h) (Hook.timeouts h) (Hook.nextTimeout h) (Hook.pings h)
          (Hook.wsRef h) (Hook.pingIntervalRef h) (Hook.reconnectTimeoutRef h)
          b (Hook.missedPongsRef h) (Hook.state h).

Definition set_wsRef (r : option nat) (h : Hook.t) : Hook.t :=
  Hook.mk (Hook.sockets h) (Hook.timeouts h) (Hook.nextTimeout h) (Hook.pings h)
          r (Hook.pingIntervalRef h) (Hook.reconnectTimeoutRef h)
          (Hook.shouldReconnectRef h) (Hook.missedPongsRef h) (Hook.state h).

Definition set_sockets (l : list Socket.t) (h : Hook.t) : Hook.t :=
  Hook.mk l (Hook.timeouts h) (Hook.nextTimeout h) (Hook.pings h)
          (Hook.wsRef h) (Hook.pingIntervalRef h) (Hook.reconnectTimeoutRef h)
          (Hook.shouldReconnectRef h) (Hook.missedPongsRef h) (Hook.state h).

(** [ws.send(JSON.stringify({ type: 'ping' }))] on socket [i] *)
Definition send_ping (i : nat) (h : Hook.t) : Hook.t :=
  Hook.mk (Hook.sockets h) (Hook.timeouts h) (Hook.nextTimeout h)
          (Hook.pings h ++ [i])
          (Hook.wsRef h) (Hook.pingIntervalRef h) (Hook.reconnectTimeoutRef h)
          (Hook.shouldReconnectRef h) (Hook.missedPongsRef h) (Hook.state h).

(** [reconnectTimeoutRef.current = setTimeout(cb, reconnectInterval)], where
    [cb] closes over the reconnect count [c] *)
Definition set_reconnect_timeout (c : Z) (h : Hook.t) : Hook.t :=
  Hook.mk (Hook.sockets h) (<[Hook.nextTimeout h := c]> (Hook.timeouts h))
          (S (Hook.nextTimeout h)) (Hook.pings h)
          (Hook.wsRef h) (Hook.pingIntervalRef h) (Some (Hook.nextTimeout h))
          (Hook.shouldReconnectRef h) (Hook.missedPongsRef h) (Hook.state h).

(** [if (ref.current) { clearTimeout(ref.current); ref.current = null }] *)
Definition clear_reconnect_timeout (h : Hook.t) : Hook.t :=
  match Hook.reconnectTimeoutRef h with
  | Some t =>
      Hook.mk (Hook.sockets h) (delete t (Hook.timeouts h)) (Hook.nextTimeout h)
              (Hook.pings h) (Hook.wsRef h) (Hook.pingIntervalRef h) None
              (Hook.shouldReconnectRef h) (Hook.missedPongsRef h) (Hook.state h)
  | None => h
  end.

(** [wsRef.current?.readyState] *)
Definition current_readyState (h : Hook.t) : option ReadyState.t :=
  i ← Hook.wsRef h; Socket.readyState <$> Hook.sockets h !! i.

Definition current_is_open (h : Hook.t) : bool :=
  match current_readyState h with
  | Some ReadyState.OPEN => true
  | _ => false
  end.

(** *** handleMessage *)

Definition defaultCounts : gmap string number :=
  {[ "happy" := 0%Q; "neutral" := 0%Q; "sad" := 0%Q; "angry" := 0%Q ]}.

(** The [VideoStats] object built from a [video_stats] frame.  Spreading the
    frame's counts after the four zeroed labels lets the frame's keys win. *)
Definition videoStats_of (d : VideoStatsData.t) : VideoStats.t :=
  {| VideoStats.is_recording := true;
     VideoStats.total_frames := num_or (VideoStatsData.total_frames d) 0;
     VideoStats.duration_seconds := num_or (VideoStatsData.duration d) 0;
     VideoStats.counts := obj_or (VideoStatsData.emotion_counts d) ∅ ∪ defaultCounts;
     VideoStats.current_emotion := str_or (VideoStatsData.dominant_emotion d) "neutral";
     VideoStats.current_confidence := num_or (VideoStatsData.confidence d) 0 |}.

Definition liveMetrics_of (d : AudioMetricsData.t) : LiveMetrics.t :=
  {| LiveMetrics.amplitude := num_or (AudioMetricsData.amplitude d) 0;
     LiveMetrics.is_speech := bool_or (AudioMetricsData.is_speech d) false;
     LiveMetrics.duration := num_or (AudioMetricsData.duration d) 0 |}.

Definition note_heartbeat (now : Z) (p : WebSocketState.t) : WebSocketState.t :=
  WebSocketState.mk (WebSocketState.isConnected p) (WebSocketState.isConnecting p)
    (WebSocketState.error p) (WebSocketState.lastMessage p)
    (WebSocketState.reconnectCount p) (Some now) (WebSocketState.missedPongs p).

Definition note_pong (now : Z) (p : WebSocketState.t) : WebSocketState.t :=
  WebSocketState.mk (WebSocketState.isConnected p) (WebSocketState.isConnecting p)
    (WebSocketState.error p) (WebSocketState.lastMessage p)
    (WebSocketState.reconnectCount p) (Some now) 0.

Definition note_message (ev : WSEvent.t) (p : WebSocketState.t) : WebSocketState.t :=
  WebSocketState.mk (WebSocketState.isConnected p) (WebSocketState.isConnecting p)
    (WebSocketState.error p) (Some ev)
    (WebSocketState.reconnectCount p) (WebSocketState.lastHeartbeat p)
    (WebSocketState.missedPongs p).

Definition note_missed (n : Z) (p : WebSocketState.t) : WebSocketState.t :=
  WebSocketState.mk (WebSocketState.isConnected p) (WebSocketState.isConnecting p)
    (WebSocketState.error p) (WebSocketState.lastMessage p)
    (WebSocketState.reconnectCount p) (WebSocketState.lastHeartbeat p) n.

(** The [switch].  [None] stands for a case that throws because the frame
    has no [data] object to read from. *)
Definition processEvent (now : Z) (ev : WSEvent.t) (w : World) : option World :=
  match ev with
  | WSEvent.video_stats (Some d) =>
      Some (with_store (setVideoStats (Some (videoStats_of d))) w)
  | WSEvent.audio_metrics (Some d) =>
      Some (with_store (setAudioMetrics (Some (liveMetrics_of d))) w)
  | WSEvent.audio_status (Some _) => Some w
  | WSEvent.session_completed => Some w
  | WSEvent.final_result (Some r) =>
      Some (with_store (setFinalResult (Some r)) w)
  | WSEvent.final_result None => Some w
  | WSEvent.error (Some message) => Some (with_store (setError message) w)
  | WSEvent.connected => Some w
  | WSEvent.heartbeat => Some (with_hook (setState (note_heartbeat now)) w)
  | WSEvent.pong =>
      Some (with_hook (fun h => setState (note_pong now) (set_missedPongsRef 0 h)) w)
  | WSEvent.unhandled _ => Some w
  | WSEvent.video_stats None | WSEvent.audio_metrics None
  | WSEvent.audio_status None | WSEvent.error None => None
  end.

(** [frame] is [None] when [JSON.parse] throws; [now] is what [Date.now()]
    returns during the call.  Whatever is thrown is caught and logged. *)
Definition handleMessage (cfg : WebSocketConfig.t) (now : Z)
    (frame : option WSEvent.t) (w : World) : World :=
  match frame with
  | None => w
  | Some ev =>
      let w1 := with_hook (setState (note_message ev)) w in
      match processEvent now ev w1 with
      | Some w2 =>
          match WebSocketConfig.onMessage cfg with
          | Some f => with_store (f ev) w2
          | None => w2
          end
      | None => w1
      end
  end.

(** *** Heartbeat *)

Definition startPing (h : Hook.t) : Hook.t :=
  set_pingIntervalRef true (set_missedPongsRef 0 h).

Definition stopPing (h : Hook.t) : Hook.t :=
  set_missedPongsRef 0 (set_pingIntervalRef false h).

(** The interval callback installed by [startPing]. *)
Definition pingCallback (h : Hook.t) : Hook.t :=
  match Hook.wsRef h with
  | Some i =>
      if current_is_open h then
        let h1 := set_missedPongsRef (Hook.missedPongsRef h + 1) h in
        if (MAX_MISSED_PONGS <? Hook.missedPongsRef h1)%Z then
          set_sockets (alter Socket.close i (Hook.sockets h1)) h1
        else
          setState (note_missed (Hook.missedPongsRef h1)) (send_ping i h1)
      else h
  | None => h
  end.

(** *** connect, the socket handlers, disconnect *)

(** [connect] as created by a render whose [state.reconnectCount] is [c]. *)
Definition connect (c : Z) (h : Hook.t) : Hook.t :=
  if current_is_open h then h
  else
    let h1 :=
      setState (fun p =>
        WebSocketState.mk (WebSocketState.isConnected p) true None
          (WebSocketState.lastMessage p) (WebSocketState.reconnectCount p)
          (WebSocketState.lastHeartbeat p) (WebSocketState.missedPongs p)) h in
    set_wsRef (Some (length (Hook.sockets h1)))
      (set_sockets (Hook.sockets h1 ++ [Socket.mk ReadyState.CONNECTING c]) h1).

Definition onopen (cfg : WebSocketConfig.t) (w : World) : World :=
  call (WebSocketConfig.onConnect cfg)
    (with_hook (fun h =>
       startPing
         (setState (fun p =>
            WebSocketState.mk true false None (WebSocketState.lastMessage p) 0
              (WebSocketState.lastHeartbeat p) (WebSocketState.missedPongs p)) h)) w).

Definition onerror (cfg : WebSocketConfig.t) (w : World) : World :=
  call (WebSocketConfig.onError cfg)
    (with_hook
       (setState (fun p =>
          WebSocketState.mk (WebSocketState.isConnected p) false
            (Some "WebSocket connection error") (WebSocketState.lastMessage p)
            (WebSocketState.reconnectCount p) (WebSocketState.lastHeartbeat p)
            (WebSocketState.missedPongs p))) w).

(** [c] is the reconnect count seen by the closing socket's handlers. *)
Definition onclose (cfg : WebSocketConfig.t) (c : Z) (w : World) : World :=
  let w1 :=
    with_hook (fun h =>
      stopPing
        (setState (fun p =>
           WebSocketState.mk false false (WebSocketState.error p)
             (WebSocketState.lastMessage p) (WebSocketState.reconnectCount p)
             (WebSocketState.lastHeartbeat p) (WebSocketState.missedPongs p)) h)) w in
  let w2 := call (WebSocketConfig.onDisconnect cfg) w1 in
  if Hook.shouldReconnectRef (hook w2)
     && (c <? WebSocketConfig.reconnectAttempts cfg)%Z
  then with_hook (set_reconnect_timeout c) w2
  else w2.

(** The callback of the reconnect timeout. *)
Definition reconnectCallback (c : Z) (h : Hook.t) : Hook.t :=
  connect c
    (setState (fun p =>
       WebSocketState.mk (WebSocketState.isConnected p) (WebSocketState.isConnecting p)
         (WebSocketState.error p) (WebSocketState.lastMessage p)
         (WebSocketState.reconnectCount p + 1) (WebSocketState.lastHeartbeat p)
         (WebSocketState.missedPongs p)) h).

Definition close_current (h : Hook.t) : Hook.t :=
  match Hook.wsRef h with
  | Some i => set_wsRef None (set_sockets (alter Socket.close i (Hook.sockets h)) h)
  | None => h
  end.

Definition disconnect (h : Hook.t) : Hook.t :=
  setState (fun _ => WebSocketState.initial)
    (close_current
       (stopPing
          (clear_reconnect_timeout
             (set_shouldReconnectRef false h)))).

(** The auto-connect effect and its cleanup. *)
Definition autoConnectEffect (cfg : WebSocketConfig.t) (h : Hook.t) : Hook.t :=
  if WebSocketConfig.autoConnect cfg
     && negb (String.eqb (WebSocketConfig.sessionId cfg) "")
  then connect (WebSocketState.reconnectCount (Hook.state h))
               (set_shouldReconnectRef true h)
  else h.

Definition autoConnectCleanup : Hook.t → Hook.t := disconnect.

(** *** The polling effect of useAudioMetrics *)

(** [fetchMetrics()] up to its [await]: one more request is in flight. *)
Definition fetchMetrics (p : Poller.t) : Poller.t :=
  Poller.mk (Poller.intervalRef p) (S (Poller.inFlight p)).

Definition clear_poll_interval (p : Poller.t) : Poller.t :=
  Poller.mk false (Poller.inFlight p).

(** The effect body for the given [enabled] and [sessionId]. *)
Definition pollingEffect (enabled : bool) (sessionId : string) (p : Poller.t)
  : Poller.t :=
  if negb enabled || String.eqb sessionId "" then clear_poll_interval p
  else Poller.mk true (Poller.inFlight (fetchMetrics p)).

Definition pollingCleanup : Poller.t → Poller.t := clear_poll_interval.

(** Turning the poller off: React runs the cleanup of the previous effect
    and then the effect body with [enabled = false]. *)
Definition disablePolling (sessionId : string) (p : Poller.t) : Poller.t :=
  pollingEffect false sessionId (pollingCleanup p).

(** The rest of [fetchMetrics], run when the request settles. *)
Definition fetchResolved (m : LiveMetrics.t) (w : World) : World :=
  with_store (setAudioMetrics (Some m))
    (with_poller (fun p => Poller.mk (Poller.intervalRef p) (pred (Poller.inFlight p))) w).

Definition fetchRejected (w : World) : World :=
  with_poller (fun p => Poller.mk (Poller.intervalRef p) (pred (Poller.inFlight p))) w.

(** ** The runtime: which callback runs when

    Callbacks run one at a time, to completion.  An event that the runtime
    cannot produce in the current state (an interval that is not installed,
    a timeout that was cleared or has fired, a message on a socket that is
    not open, a settlement with nothing in flight) leaves the world as it
    is. *)

Inductive Event :=
| SocketOpen (i : nat)
| SocketMessage (i : nat) (now : Z) (frame : option WSEvent.t)
| SocketError (i : nat)
| SocketClose (i : nat)
| PingInterval
| ReconnectTimeout (t : nat)
| PollInterval
| FetchResolved (m : LiveMetrics.t)
| FetchRejected.

Definition socket_state (w : World) (i : nat) : option ReadyState.t :=
  Socket.readyState <$> Hook.sockets (hook w) !! i.

Definition mark_socket (r : ReadyState.t) (i : nat) : World → World :=
  with_hook (fun h => set_sockets (alter (Socket.with_readyState r) i (Hook.sockets h)) h).

Definition deliver (cfg : WebSocketConfig.t) (e : Event) (w : World) : World :=
  match e with
  | SocketOpen i =>
      match socket_state w i with
      | Some ReadyState.CONNECTING => onopen cfg (mark_socket ReadyState.OPEN i w)
      | _ => w
      end
  | SocketMessage i now frame =>
      match socket_state w i with
      | Some ReadyState.OPEN => handleMessage cfg now frame w
      | _ => w
      end
  | SocketError i =>
      match socket_state w i with
      | Some ReadyState.CLOSED | None => w
      | Some _ => onerror cfg w
      end
  | SocketClose i =>
      match Hook.sockets (hook w) !! i with
      | Some k =>
          match Socket.readyState k with
          | ReadyState.CLOSED => w
          | _ => onclose cfg (Socket.seenReconnectCount k)
                   (mark_socket ReadyState.CLOSED i w)
          end
      | None => w
      end
  | PingInterval =>
      if Hook.pingIntervalRef (hook w) then with_hook pingCallback w else w
  | ReconnectTimeout t =>
      match Hook.timeouts (hook w) !! t with
      | Some c =>
          with_hook (fun h =>
            reconnectCallback c
              (Hook.mk (Hook.sockets h) (delete t (Hook.timeouts h))
                 (Hook.nextTimeout h) (Hook.pings h) (Hook.wsRef h)
                 (Hook.pingIntervalRef h) (Hook.reconnectTimeoutRef h)
                 (Hook.shouldReconnectRef h) (Hook.missedPongsRef h)
                 (Hook.state h))) w
      | None => w
      end
  | PollInterval =>
      if Poller.intervalRef (poller w) then with_poller fetchMetrics w else w
  | FetchResolved m =>
      match Poller.inFlight (poller w) with
      | O => w
      | S _ => fetchResolved m w
      end
  | FetchRejected =>
      match Poller.inFlight (poller w) with
      | O => w
      | S _ => fetchRejected w
      end
  end.

Definition deliver_all (cfg : WebSocketConfig.t) (es : list Event) (w : World) : World :=
  foldl (fun w e => deliver cfg e w) w es.

(** Events of the push channel and of the poller. *)
Definition push_event (e : Event) : bool :=
  match e with
  | SocketOpen _ | SocketMessage _ _ _ | SocketError _ | SocketClose _
  | PingInterval | ReconnectTimeout _ => true
  | _ => false
  end.

Definition poll_event (e : Event) : bool :=
  match e with
  | PollInterval | FetchResolved _ | FetchRejected => true
  | _ => false
  end.

(** ** Store actions as data: what any producer or component can call *)

Inductive Action :=
| SetRole (r : Role)
| SetSession (p : SessionMeta.Partial.t)
| ResetSession
| SetAudioState (p : AudioState.Partial.t)
| ResetAudio
| SetVideoState (p : VideoState.Partial.t)
| ResetVideo
| SetAgentState (p : AgentState.Partial.t)
| ResetAgent
| SetConnectionState (p : ConnectionState.Partial.t)
| SetLoading (b : bool)
| SetError (e : option string)
| AddEvent (e : TimelineEvent.t)
| ClearEvents
| SetVideoStats (x : option VideoStats.t)
| SetAudioMetrics (x : option LiveMetrics.t)
| SetFinalResult (x : option FinalResult.t).

Definition act (a : Action) : SessionStore → SessionStore :=
  match a with
  | SetRole r => setRole r
  | SetSession p => setSession p
  | ResetSession => resetSession
  | SetAudioState p => setAudioState p
  | ResetAudio => resetAudio
  | SetVideoState p => setVideoState p
  | ResetVideo => resetVideo
  | SetAgentState p => setAgentState p
  | ResetAgent => resetAgent
  | SetConnectionState p => setConnectionState p
  | SetLoading b => setLoading b
  | SetError e => setError e
  | AddEvent e => addEvent e
  | ClearEvents => clearEvents
  | SetVideoStats x => setVideoStats x
  | SetAudioMetrics x => setAudioMetrics x
  | SetFinalResult x => setFinalResult x
  end.

Definition run (acts : list Action) (s : SessionStore) : SessionStore :=
  foldl (fun s a => act a s) s acts.

(** A store state the application can be in. *)
Definition reachable (s : SessionStore) : Prop :=
  ∃ acts, s = run acts initialStore.

(** [addEvent] called once per element, in order. *)
Definition addEvents (es : list TimelineEvent.t) (s : SessionStore) : SessionStore :=
  foldl (fun s e => addEvent e s) s es.

(** ** The dashboard's use of the hook (app/dashboard/page.tsx)

    The callbacks the page hands to [useWebSocket]; [now] is what
    [Date.now()] returns when [onConnect] runs and [sessionId] the page's
    current session id. *)

Definition dashboard_onConnect (sessionId : string) (now : Z) (s : SessionStore)
  : SessionStore :=
  addEvent
    {| TimelineEvent.id := "evt_" ++ pretty now;
       TimelineEvent.type := session_start;
       TimelineEvent.timestamp := inject_Z now;
       TimelineEvent.data := Some {[ "sessionId" := sessionId ]} |}
    (setConnectionState
       (ConnectionState.Partial.mk (Some true) (Some false) None (Some None)) s).

Definition dashboard_onDisconnect : SessionStore → SessionStore :=
  setConnectionState (ConnectionState.Partial.mk (Some false) (Some false) None None).

Definition dashboard_onMessage (ev : WSEvent.t) : SessionStore → SessionStore :=
  match ev with
  | WSEvent.video_stats (Some d) =>
      setVideoState
        {| VideoState.Partial.faceCount := Some (num_or (VideoStatsData.face_count d) 0);
           VideoState.Partial.dominantEmotion :=
             Some (str_or (VideoStatsData.dominant_emotion d) "neutral");
           VideoState.Partial.confidence := Some (num_or (VideoStatsData.confidence d) 0);
           VideoState.Partial.totalFrames := Some (num_or (VideoStatsData.total_frames d) 0);
           VideoState.Partial.duration := Some (num_or (VideoStatsData.duration d) 0);
           VideoState.Partial.emotionCounts := None;
           VideoState.Partial.isRecording := Some true |}
  | WSEvent.audio_metrics (Some d) => setAudioMetrics (Some (liveMetrics_of d))
  | _ => id
  end.

Definition dashboardConfig (sessionId : string) (now : Z) : WebSocketConfig.t :=
  {| WebSocketConfig.sessionId := sessionId;
     WebSocketConfig.autoConnect := negb (String.eqb sessionId "");
     WebSocketConfig.reconnectAttempts := 5;
     WebSocketConfig.reconnectInterval := 2000;
     WebSocketConfig.onMessage := Some dashboard_onMessage;
     WebSocketConfig.onConnect := Some (dashboard_onConnect sessionId now);
     WebSocketConfig.onDisconnect := Some dashboard_onDisconnect;
     WebSocketConfig.onError := None |}.

(** ** Runs of the heartbeat *)

(** A probe tick, a frame other than a pong, or an event of the poller:
    what the runtime may deliver while the server answers no ping and the
    transport reports nothing (no open, error or close event). *)
Definition quiet (e : Event) : bool :=
  match e with
  | PingInterval => true
  | SocketMessage _ _ (Some WSEvent.pong) => false
  | SocketMessage _ _ _ => true
  | PollInterval | FetchResolved _ | FetchRejected => true
  | _ => false
  end.

(** The heartbeat is running on the open transport [i] with [n] probes
    unanswered. *)
Definition probing (i : nat) (n : Z) (w : World) : Prop :=
  Hook.wsRef (hook w) = Some i ∧
  socket_state w i = Some ReadyState.OPEN ∧
  Hook.pingIntervalRef (hook w) = true ∧
  Hook.missedPongsRef (hook w) = n.

Fixpoint ticks (es : list Event) : nat :=
  match es with
  | [] => 0
  | PingInterval :: es' => S (ticks es')
  | _ :: es' => ticks es'
  end.

(** ** Field-level merge, field by field *)

(** [new] is what a field holding [old] holds after a partial whose
    matching key is [upd]: the key's value when the key is there, [old]
    when it is not. *)
Definition merged {A} (old : A) (upd : option A) (new : A) : Prop :=
  match upd with
  | Some x => new = x
  | None => new = old
  end.

Definition audio_merged (v : AudioState.t) (p : AudioState.Partial.t) (v' : AudioState.t) : Prop :=
  merged (AudioState.amplitude v) (AudioState.Partial.amplitude p) (AudioState.amplitude v') ∧
  merged (AudioState.isSpeech v) (AudioState.Partial.isSpeech p) (AudioState.isSpeech v') ∧
  merged (AudioState.duration v) (AudioState.Partial.duration p) (AudioState.duration v') ∧
  merged (AudioState.status v) (AudioState.Partial.status p) (AudioState.status v') ∧
  merged (AudioState.totalFrames v) (AudioState.Partial.totalFrames p) (AudioState.totalFrames v') ∧
  merged (AudioState.speechFrames v) (AudioState.Partial.speechFrames p) (AudioState.speechFrames v') ∧
  merged (AudioState.error v) (AudioState.Partial.error p) (AudioState.error v').

Definition video_merged (v : VideoState.t) (p : VideoState.Partial.t) (v' : VideoState.t) : Prop :=
  merged (VideoState.faceCount v) (VideoState.Partial.faceCount p) (VideoState.faceCount v') ∧
  merged (VideoState.dominantEmotion v) (VideoState.Partial.dominantEmotion p) (VideoState.dominantEmotion v') ∧
  merged (VideoState.confidence v) (VideoState.Partial.confidence p) (VideoState.confidence v') ∧
  merged (VideoState.totalFrames v) (VideoState.Partial.totalFrames p) (VideoState.totalFrames v') ∧
  merged (VideoState.duration v) (VideoState.Partial.duration p) (VideoState.duration v') ∧
  merged (VideoState.emotionCounts v) (VideoState.Partial.emotionCounts p) (VideoState.emotionCounts v') ∧
  merged (VideoState.isRecording v) (VideoState.Partial.isRecording p) (VideoState.isRecording v').

Definition agent_merged (v : AgentState.t) (p : AgentState.Partial.t) (v' : AgentState.t) : Prop :=
  merged (AgentState.finalState v) (AgentState.Partial.finalState p) (AgentState.finalState v') ∧
  merged (AgentState.confidence v) (AgentState.Partial.confidence p) (AgentState.confidence v') ∧
  merged (AgentState.reasoning v) (AgentState.Partial.reasoning p) (AgentState.reasoning v') ∧
  merged (AgentState.recommendation v) (AgentState.Partial.recommendation p) (AgentState.recommendation v').

Definition connection_merged (v : ConnectionState.t) (p : ConnectionState.Partial.t)
    (v' : ConnectionState.t) : Prop :=
  merged (ConnectionState.isConnected v) (ConnectionState.Partial.isConnected p) (ConnectionState.isConnected v') ∧
  merged (ConnectionState.isConnecting v) (ConnectionState.Partial.isConnecting p) (ConnectionState.isConnecting v') ∧
  merged (ConnectionState.reconnectCount v) (ConnectionState.Partial.reconnectCount p) (ConnectionState.reconnectCount v') ∧
  merged (ConnectionState.lastError v) (ConnectionState.Partial.lastError p) (ConnectionState.lastError v').

(** The partial a [video_stats] frame would be if its wire fields were
    mapped one to one: a key for each field the frame has. *)
Definition partial_of_frame (d : VideoStatsData.t) : VideoState.Partial.t :=
  {| VideoState.Partial.faceCount := None;
     VideoState.Partial.dominantEmotion := VideoStatsData.dominant_emotion d;
     VideoState.Partial.confidence := VideoStatsData.confidence d;
     VideoState.Partial.totalFrames := VideoStatsData.total_frames d;
     VideoState.Partial.duration := VideoStatsData.duration d;
     VideoState.Partial.emotionCounts := VideoStatsData.emotion_counts d;
     VideoState.Partial.isRecording := None |}.

(** ** Comparing video views over time *)

(** Every label counted in [c1] is counted in [c2], no lower. *)
Definition counts_le (c1 c2 : gmap string number) : Prop :=
  ∀ k n, c1 !! k = Some n → ∃ m, c2 !! k = Some m ∧ (n <= m)%Q.

(** [totalFrames] and every per-emotion count are no lower in [v2]. *)
Definition video_le (v1 v2 : VideoState.t) : Prop :=
  (VideoState.totalFrames v1 <= VideoState.totalFrames v2)%Q ∧
  counts_le (VideoState.emotionCounts v1) (VideoState.emotionCounts v2).

(** The two ways a producer writes the video view: a partial handed to
    [setVideoState], or a [video_stats] frame, which [handleMessage] turns
    into a [setVideoStats] call. *)
Inductive VideoUpdate :=
| ByPartial (p : VideoState.Partial.t)
| ByFrame (d : VideoStatsData.t).

Definition applyVideoUpdate (u : VideoUpdate) : SessionStore → SessionStore :=
  match u with
  | ByPartial p => setVideoState p
  | ByFrame d => setVideoStats (Some (videoStats_of d))
  end.

(** What an update carries for the two cumulative fields, if anything. *)
Definition supplied_totalFrames (u : VideoUpdate) : option number :=
  match u with
  | ByPartial p => VideoState.Partial.totalFrames p
  | ByFrame d => Some (VideoStats.total_frames (videoStats_of d))
  end.

Definition supplied_counts (u : VideoUpdate) : option (gmap string number) :=
  match u with
  | ByPartial p => VideoState.Partial.emotionCounts p
  | ByFrame d => Some (VideoStats.counts (videoStats_of d))
  end.

(** The values carried by [u] are not below the ones held in [v]. *)
Definition supplies_no_less (u : VideoUpdate) (v : VideoState.t) : Prop :=
  from_option (λ n, (VideoState.totalFrames v <= n)%Q) True (supplied_totalFrames u) ∧
  from_option (counts_le (VideoState.emotionCounts v)) True (supplied_counts u).

(** The cumulative fields never go down along the updates [us], applied in
    order from [s]. *)
Fixpoint nondecreasing_along (s : SessionStore) (us : list VideoUpdate) : Prop :=
  match us with
  | [] => True
  | u :: us' =>
      video_le (video s) (video (applyVideoUpdate u s)) ∧
      nondecreasing_along (applyVideoUpdate u s) us'
  end.

(** Every update of [us] carries values not below the ones held when it is
    applied. *)
Fixpoint supplied_nondecreasing (s : SessionStore) (us : list VideoUpdate) : Prop :=
  match us with
  | [] => True
  | u :: us' =>
      supplies_no_less u (video s) ∧
      supplied_nondecreasing (applyVideoUpdate u s) us'
  end.

(** Actions that write the agent view. *)
Definition writes_agent (a : Action) : bool :=
  match a with
  | SetAgentState _ | ResetAgent | ResetSession | SetFinalResult _ => true
  | _ => false
  end.

(** ** Sample values used to exercise the statements *)

Definition sampleEvent (n : nat) : TimelineEvent.t :=
  {| TimelineEvent.id := "evt";
     TimelineEvent.type := session_start;
     TimelineEvent.timestamp := inject_Z (Z.of_nat n);
     TimelineEvent.data := None |}.

Definition sampleEvents (k : nat) : list TimelineEvent.t := sampleEvent <$> seq 0 k.

Definition sampleMetrics : LiveMetrics.t :=
  {| LiveMetrics.amplitude := 1 # 2;
     LiveMetrics.is_speech := true;
     LiveMetrics.duration := 3 |}.

Definition sampleResult (verdict : string) : FinalResult.t :=
  {| FinalResult.final_state := verdict;
     FinalResult.confidence := None;
     FinalResult.reasoning := None;
     FinalResult.recommendation := None |}.

Definition sampleConfig : WebSocketConfig.t :=
  {| WebSocketConfig.sessionId := "SESS_1";
     WebSocketConfig.autoConnect := true;
     WebSocketConfig.reconnectAttempts := 5;
     WebSocketConfig.reconnectInterval := 2000;
     WebSocketConfig.onMessage := None;
     WebSocketConfig.onConnect := None;
     WebSocketConfig.onDisconnect := None;
     WebSocketConfig.onError := None |}.

(** The world once the auto-connect effect has run, and once its transport
    has opened. *)
Definition connectingWorld : World :=
  with_hook (autoConnectEffect sampleConfig) initialWorld.

Definition connectedWorld : World :=
  deliver sampleConfig (SocketOpen 0) connectingWorld.

(** Three probes that get no pong; the server still sends a heartbeat. *)
Definition silentRun : list Event :=
  [PingInterval; SocketMessage 0 6000 (Some WSEvent.heartbeat);
   PingInterval; PingInterval].

(** The connected world after [silentRun] and one more probe. *)
Definition deadWorld : World :=
  deliver sampleConfig PingInterval (deliver_all sampleConfig silentRun connectedWorld).

(** [deadWorld] once the close event has come: a reconnect is pending. *)
Definition reconnectingWorld : World :=
  deliver sampleConfig (SocketClose 0) deadWorld.

(** The dashboard connected to its session. *)
Definition dashboardWorld : World :=
  let cfg := dashboardConfig "SESS_1" 1000 in
  deliver cfg (SocketOpen 0) (with_hook (autoConnectEffect cfg) initialWorld).

(** The poller switched on: its first request is in flight. *)
Definition pollingWorld : World :=
  with_poller (pollingEffect true "SESS_1") initialWorld.

(** A store in the middle of a session: two faces, a happy customer. *)
Definition busyStore : SessionStore :=
  set_video
    {| VideoState.faceCount := 2;
       VideoState.dominantEmotion := "happy";
       VideoState.confidence := 9 # 10;
       VideoState.totalFrames := 40;
       VideoState.duration := 4;
       VideoState.emotionCounts := {[ "happy" := 5%Q; "surprise" := 1%Q ]};
       VideoState.isRecording := true |} initialStore.

(** A frame that carries [total_frames] and nothing else. *)
Definition framesOnlyFrame (n : number) : VideoStatsData.t :=
  VideoStatsData.mk (Some n) None None None None None.

(** A partial carrying only [totalFrames], and a frame carrying only
    [total_frames] and [emotion_counts]. *)
Definition framesPartial (n : number) : VideoState.Partial.t :=
  VideoState.Partial.mk None None None (Some n) None None None.

Definition statsFrame (n : number) (happy : number) : VideoStatsData.t :=
  VideoStatsData.mk (Some n) None (Some {[ "happy" := happy ]}) None None None.

(** ** Partials applied one after the other *)

(** [{ ...p, ...q }] on partials: a key of [q] wins, a key of [p] alone stays. *)
Definition over {A} (p q : option A) : option A :=
  match q with
  | Some x => Some x
  | None => p
  end.

Definition audio_partial_over (p q : AudioState.Partial.t) : AudioState.Partial.t :=
  {| AudioState.Partial.amplitude :=
       over (AudioState.Partial.amplitude p) (AudioState.Partial.amplitude q);
     AudioState.Partial.isSpeech :=
       over (AudioState.Partial.isSpeech p) (AudioState.Partial.isSpeech q);
     AudioState.Partial.duration :=
       over (AudioState.Partial.duration p) (AudioState.Partial.duration q);
     AudioState.Partial.status :=
       over (AudioState.Partial.status p) (AudioState.Partial.status q);
     AudioState.Partial.totalFrames :=
       over (AudioState.Partial.totalFrames p) (AudioState.Partial.totalFrames q);
     AudioState.Partial.speechFrames :=
       over (AudioState.Partial.speechFrames p) (AudioState.Partial.speechFrames q);
     AudioState.Partial.error :=
       over (AudioState.Partial.error p) (AudioState.Partial.error q) |}.

Definition video_partial_over (p q : VideoState.Partial.t) : VideoState.Partial.t :=
  {| VideoState.Partial.faceCount :=
       over (VideoState.Partial.faceCount p) (VideoState.Partial.faceCount q);
     VideoState.Partial.dominantEmotion :=
       over (VideoState.Partial.dominantEmotion p) (VideoState.Partial.dominantEmotion q);
     VideoState.Partial.confidence :=
       over (VideoState.Partial.confidence p) (VideoState.Partial.confidence q);
     VideoState.Partial.totalFrames :=
       over (VideoState.Partial.totalFrames p) (VideoState.Partial.totalFrames q);
     VideoState.Partial.duration :=
       over (VideoState.Partial.duration p) (VideoState.Partial.duration q);
     VideoState.Partial.emotionCounts :=
       over (VideoState.Partial.emotionCounts p) (VideoState.Partial.emotionCounts q);
     VideoState.Partial.isRecording :=
       over (VideoState.Partial.isRecording p) (VideoState.Partial.isRecording q) |}.

Definition agent_partial_over (p q : AgentState.Partial.t) : AgentState.Partial.t :=
  {| AgentState.Partial.finalState :=
       over (AgentState.Partial.finalState p) (AgentState.Partial.finalState q);
     AgentState.Partial.confidence :=
       over (AgentState.Partial.confidence p) (AgentState.Partial.confidence q);
     AgentState.Partial.reasoning :=
       over (AgentState.Partial.reasoning p) (AgentState.Partial.reasoning q);
     AgentState.Partial.recommendation :=
       over (AgentState.Partial.recommendation p) (AgentState.Partial.recommendation q) |}.

Definition connection_partial_over (p q : ConnectionState.Partial.t)
  : ConnectionState.Partial.t :=
  {| ConnectionState.Partial.isConnected :=
       over (ConnectionState.Partial.isConnected p) (ConnectionState.Partial.isConnected q);
     ConnectionState.Partial.isConnecting :=
       over (ConnectionState.Partial.isConnecting p) (ConnectionState.Partial.isConnecting q);
     ConnectionState.Partial.reconnectCount :=
       over (ConnectionState.Partial.reconnectCount p) (ConnectionState.Partial.reconnectCount q);
     ConnectionState.Partial.lastError :=
       over (ConnectionState.Partial.lastError p) (ConnectionState.Partial.lastError q) |}.

Definition session_partial_over (p q : SessionMeta.Partial.t) : SessionMeta.Partial.t :=
  {| SessionMeta.Partial.id := over (SessionMeta.Partial.id p) (SessionMeta.Partial.id q);
     SessionMeta.Partial.startTime :=
       over (SessionMeta.Partial.startTime p) (SessionMeta.Partial.startTime q);
     SessionMeta.Partial.status :=
       over (SessionMeta.Partial.status p) (SessionMeta.Partial.status q);
     SessionMeta.Partial.videoActive :=
       over (SessionMeta.Partial.videoActive p) (SessionMeta.Partial.videoActive q);
     SessionMeta.Partial.audioActive :=
       over (SessionMeta.Partial.audioActive p) (SessionMeta.Partial.audioActive q) |}.

(** ** The slots of the store an action writes *)

Inductive Slot :=
| role_slot | session_slot | audio_slot | video_slot | agent_slot
| connection_slot | isLoading_slot | error_slot | events_slot
| videoStats_slot | audioMetrics_slot | finalResult_slot.

Definition slot_index (x : Slot) : nat :=
  match x with
  | role_slot => 0 | session_slot => 1 | audio_slot => 2 | video_slot => 3
  | agent_slot => 4 | connection_slot => 5 | isLoading_slot => 6
  | error_slot => 7 | events_slot => 8 | videoStats_slot => 9
  | audioMetrics_slot => 10 | finalResult_slot => 11
  end.

Definition slot_in (x : Slot) (l : list Slot) : bool :=
  existsb (λ y, Nat.eqb (slot_index x) (slot_index y)) l.

(** The keys of the patches an action hands to [set]. *)
Definition writes (a : Action) : list Slot :=
  match a with
  | SetRole _ => [role_slot]
  | SetSession _ => [session_slot]
  | ResetSession =>
      [session_slot; audio_slot; video_slot; agent_slot; events_slot; error_slot;
       videoStats_slot; audioMetrics_slot; finalResult_slot]
  | SetAudioState _ | ResetAudio => [audio_slot]
  | SetVideoState _ | ResetVideo => [video_slot]
  | SetAgentState _ | ResetAgent => [agent_slot]
  | SetConnectionState _ => [connection_slot]
  | SetLoading _ => [isLoading_slot]
  | SetError _ => [error_slot]
  | AddEvent _ | ClearEvents => [events_slot]
  | SetVideoStats _ => [videoStats_slot; video_slot]
  | SetAudioMetrics _ => [audioMetrics_slot; audio_slot]
  | SetFinalResult _ => [finalResult_slot; agent_slot]
  end.

(** The two stores hold the same value in slot [x]. *)
Definition same_slot (x : Slot) (s s' : SessionStore) : Prop :=
  match x with
  | role_slot => role s = role s'
  | session_slot => session s = session s'
  | audio_slot => audio s = audio s'
  | video_slot => video s = video s'
  | agent_slot => agent s = agent s'
  | connection_slot => connection s = connection s'
  | isLoading_slot => isLoading s = isLoading s'
  | error_slot => error s = error s'
  | events_slot => events s = events s'
  | videoStats_slot => videoStats s = videoStats s'
  | audioMetrics_slot => audioMetrics s = audioMetrics s'
  | finalResult_slot => finalResult s = finalResult s'
  end.

(** No slot is written by both actions. *)
Definition disjoint_writes (a b : Action) : bool :=
  forallb (λ x, negb (slot_in x (writes b))) (writes a).

(** The action writes none of the slots [resetSession] keeps. *)
Definition spares_kept_slots (a : Action) : bool :=
  negb (slot_in role_slot (writes a))
  && negb (slot_in connection_slot (writes a))
  && negb (slot_in isLoading_slot (writes a)).

(** ** The timeline as displayed (components/SessionTimeline.tsx) *)

(** [Array.prototype.slice(start)] for an integer [start]: a negative start
    counts from the end, and both ends are clamped. *)
Definition js_slice_from {A} (start : Z) (l : list A) : list A :=
  if (start <? 0)%Z
  then drop (Z.to_nat (Z.max (Z.of_nat (length l) + start) 0)) l
  else drop (Z.to_nat (Z.min start (Z.of_nat (length l)))) l.

(** [events.slice(-maxEvents).reverse()] *)
Definition displayEvents (maxEvents : Z) (evs : list TimelineEvent.t)
  : list TimelineEvent.t :=
  reverse (js_slice_from (- maxEvents) evs).

(** ** More of the push channel *)

(** [sendMessage(message)]: [Some i] when the frame is handed to the current
    transport [i] and [true] is returned, [None] when the call only warns
    and returns [false]. *)
Definition sendMessage (h : Hook.t) : option nat :=
  match Hook.wsRef h with
  | Some i => if current_is_open h then Some i else None
  | None => None
  end.

(** What the component around the hook can do to it: call [connect] (as
    created by a render that saw the reconnect count [c]), call
    [disconnect], run the auto-connect effect or its cleanup. *)
Inductive Invoke :=
| InvokeConnect (c : Z)
| InvokeDisconnect
| InvokeEffect
| InvokeCleanup.

Definition invoke (cfg : WebSocketConfig.t) (c : Invoke) : Hook.t → Hook.t :=
  match c with
  | InvokeConnect c => connect c
  | InvokeDisconnect => disconnect
  | InvokeEffect => autoConnectEffect cfg
  | InvokeCleanup => autoConnectCleanup
  end.

(** One thing happening to the world: the runtime delivers an event, or the
    component calls into the hook. *)
Inductive Step :=
| Delivered (e : Event)
| Invoked (c : Invoke).

Definition step (cfg : WebSocketConfig.t) (x : Step) (w : World) : World :=
  match x with
  | Delivered e => deliver cfg e w
  | Invoked c => with_hook (invoke cfg c) w
  end.

Definition steps (cfg : WebSocketConfig.t) (xs : list Step) (w : World) : World :=
  foldl (fun w x => step cfg x w) w xs.

(** The count of missed pongs is within 0..4, and within 0..3 while the
    current transport is open. *)
Definition missed_in_bounds (h : Hook.t) : Prop :=
  (0 ≤ Hook.missedPongsRef h ≤ MAX_MISSED_PONGS + 1)%Z ∧
  (current_is_open h = true → (Hook.missedPongsRef h ≤ MAX_MISSED_PONGS)%Z).

(** [n] rounds of a transport that fails to come up: its close event, then
    the reconnect timeout that the close handler installed. *)
Definition retryRounds (n : nat) : list Event :=
  flat_map (λ k, [SocketClose k; ReconnectTimeout k]) (seq 0 n).

(** The hook after the auto-connect effect and [n] such rounds. *)
Definition retryingHook (n : nat) : Hook.t :=
  {| Hook.sockets :=
       replicate n (Socket.mk ReadyState.CLOSED 0)
       ++ [Socket.mk ReadyState.CONNECTING 0];
     Hook.timeouts := ∅;
     Hook.nextTimeout := n;
     Hook.pings := [];
     Hook.wsRef := Some n;
     Hook.pingIntervalRef := false;
     Hook.reconnectTimeoutRef := match n with O => None | S m => Some m end;
     Hook.shouldReconnectRef := true;
     Hook.missedPongsRef := 0;
     Hook.state :=
       WebSocketState.mk false true None None (Z.of_nat n) None 0 |}.

(** The parts of the hook that make up the connection: transports, timers,
    refs and frames sent. *)
Definition same_connection (h h' : Hook.t) : Prop :=
  Hook.sockets h' = Hook.sockets h ∧
  Hook.timeouts h' = Hook.timeouts h ∧
  Hook.nextTimeout h' = Hook.nextTimeout h ∧
  Hook.pings h' = Hook.pings h ∧
  Hook.wsRef h' = Hook.wsRef h ∧
  Hook.pingIntervalRef h' = Hook.pingIntervalRef h ∧
  Hook.reconnectTimeoutRef h' = Hook.reconnectTimeoutRef h ∧
  Hook.shouldReconnectRef h' = Hook.shouldReconnectRef h.

(** Frames that the [switch] only logs or uses for liveness. *)
Definition carries_no_update (ev : WSEvent.t) : bool :=
  match ev with
  | WSEvent.audio_status (Some _) | WSEvent.session_completed
  | WSEvent.final_result None | WSEvent.connected | WSEvent.heartbeat
  | WSEvent.pong | WSEvent.unhandled _ => true
  | _ => false
  end.

(** Frames whose case reads a [data] object that is not there. *)
Definition lacks_data (ev : WSEvent.t) : bool :=
  match ev with
  | WSEvent.video_stats None | WSEvent.audio_metrics None
  | WSEvent.audio_status None | WSEvent.error None => true
  | _ => false
  end.

(** The world of a page whose first transport is still connecting when
    [connect] is called again and the second transport opens. *)
Definition orphanWorld : World :=
  deliver sampleConfig (SocketOpen 1)
    (with_hook (connect 0) connectingWorld).

(** ** Requests and how they settle *)

(** A promise returned by one of the API services: fulfilled with the
    response data, or rejected.  A rejection carries what the callers look
    at: whether the reason is an [Error] and its message, and the HTTP
    status of the response when there is one. *)
Inductive Settled (A : Type) :=
| Fulfilled (a : A)
| Rejected (message : option string) (httpStatus : option Z).
Arguments Fulfilled {A} a.
Arguments Rejected {A} message httpStatus.

(** How an async function of a hook ends: it returns a value or throws. *)
Inductive Completion (A : Type) :=
| Returns (a : A)
| Throws.
Arguments Returns {A} a.
Arguments Throws {A}.

(** ** Session control (hooks/useSession.ts) *)

Inductive SatisfactionState := SATISFIED | NEUTRAL | DISSATISFIED.

Definition satisfaction_name (v : SatisfactionState) : string :=
  match v with
  | SATISFIED => "SATISFIED"
  | NEUTRAL => "NEUTRAL"
  | DISSATISFIED => "DISSATISFIED"
  end.

(** The result of the analysis endpoint as types/api.ts declares it, without
    the audio and video summaries, which the store never reads. *)
Module ApiFinalResult.
Record t := mk {
  session_id : string;
  final_state : SatisfactionState;
  confidence : gmap string number;
  reasoning : list string;
  recommendation : string;
}.
End ApiFinalResult.

(** The same object seen at the store's own [FinalResult] type. *)
Definition storeResult_of (r : ApiFinalResult.t) : FinalResult.t :=
  {| FinalResult.final_state := satisfaction_name (ApiFinalResult.final_state r);
     FinalResult.confidence := Some (ApiFinalResult.confidence r);
     FinalResult.reasoning := Some (ApiFinalResult.reasoning r);
     FinalResult.recommendation := Some (ApiFinalResult.recommendation r) |}.

(** [`SESS_${Date.now()}`] *)
Definition generateSessionId (now : Z) : string := "SESS_" ++ pretty now.

(** [startSession()]: [now] is the reading of [Date.now()], [started] the
    time of [new Date()].  Returns the new id. *)
Definition startSession (now : Z) (started : number) (s : SessionStore)
  : string * SessionStore :=
  let sessionId := generateSessionId now in
  (sessionId,
   setSession
     {| SessionMeta.Partial.id := Some sessionId;
        SessionMeta.Partial.startTime := Some (Some started);
        SessionMeta.Partial.status := Some SessionStatus.recording;
        SessionMeta.Partial.videoActive := None;
        SessionMeta.Partial.audioActive := None |} s).

Definition endSession : SessionStore → SessionStore :=
  setSession
    {| SessionMeta.Partial.id := None;
       SessionMeta.Partial.startTime := None;
       SessionMeta.Partial.status := Some SessionStatus.processing;
       SessionMeta.Partial.videoActive := None;
       SessionMeta.Partial.audioActive := None |}.

(** [analyzeSession] up to its [await]; [sid] is the [session.id] the
    callback closes over.  [None] means it has returned [null] already,
    [Some id] that the analysis of [id] was requested. *)
Definition analyzeSession_begin (sid : string) (s : SessionStore)
  : option string * SessionStore :=
  if String.eqb sid "" then (None, setError (Some "No active session") s)
  else (Some sid, setError None (setLoading true s)).

(** The agent partial [analyzeSession] builds from the result. *)
Definition agentPartial_of (r : ApiFinalResult.t) : AgentState.Partial.t :=
  {| AgentState.Partial.finalState :=
       Some (Some (satisfaction_name (ApiFinalResult.final_state r)));
     AgentState.Partial.confidence := Some (ApiFinalResult.confidence r);
     AgentState.Partial.reasoning := Some (ApiFinalResult.reasoning r);
     AgentState.Partial.recommendation := Some (ApiFinalResult.recommendation r) |}.

Definition completePartial : SessionMeta.Partial.t :=
  {| SessionMeta.Partial.id := None;
     SessionMeta.Partial.startTime := None;
     SessionMeta.Partial.status := Some SessionStatus.complete;
     SessionMeta.Partial.videoActive := None;
     SessionMeta.Partial.audioActive := None |}.

(** The rest of [analyzeSession], run when the request settles: the [try]
    body or the [catch], then the [finally]. *)
Definition analyzeSession_settle (o : Settled ApiFinalResult.t) (s : SessionStore)
  : option ApiFinalResult.t * SessionStore :=
  match o with
  | Fulfilled r =>
      (Some r,
       setLoading false
         (setSession completePartial
            (setAgentState (agentPartial_of r)
               (setFinalResult (Some (storeResult_of r)) s))))
  | Rejected message _ =>
      (None,
       setLoading false (setError (Some (default "Analysis failed" message)) s))
  end.

(** ** Recording controls of useAudioMetrics *)

Module AudioControls.
(** The hook's own [status] and [isLoading]. *)
Record t := mk {
  status : AudioStatus.t;
  isLoading : bool;
}.
Definition initial : t := mk AudioStatus.idle false.
End AudioControls.

(** [startRecording(overrideSessionId)] up to its [await]: it throws, or it
    has requested a recording for the id. *)
Definition startRecording_begin (overrideSessionId : option string)
    (sessionId : string) (c : AudioControls.t)
  : Completion string * AudioControls.t :=
  let sid := str_or overrideSessionId sessionId in
  if String.eqb sid "" then (Throws, c)
  else (Returns sid, AudioControls.mk (AudioControls.status c) true).

(** The rest of [startRecording]: it returns the response or rethrows. *)
Definition startRecording_settle {R} (o : Settled R) (c : AudioControls.t)
  : Completion R * AudioControls.t :=
  match o with
  | Fulfilled r => (Returns r, AudioControls.mk AudioStatus.recording false)
  | Rejected _ _ => (Throws, AudioControls.mk (AudioControls.status c) false)
  end.

(** [stopRecording] up to its [await]: [inl] when it has returned [null]
    already (no session id), [inr] when the stop was requested. *)
Definition stopRecording_begin (sessionId : string) (c : AudioControls.t)
  : (unit + string) * AudioControls.t :=
  if String.eqb sessionId "" then (inl (), AudioControls.mk AudioStatus.idle false)
  else (inr sessionId, AudioControls.mk (AudioControls.status c) true).

(** The rest of [stopRecording]; the value returned is the response or
    [null]. *)
Definition stopRecording_settle {R} (o : Settled R) (c : AudioControls.t)
  : Completion (option R) * AudioControls.t :=
  match o with
  | Fulfilled r => (Returns (Some r), AudioControls.mk AudioStatus.processing false)
  | Rejected _ (Some 400%Z) => (Returns None, AudioControls.mk AudioStatus.idle false)
  | Rejected _ _ => (Throws, AudioControls.mk (AudioControls.status c) false)
  end.

Definition getResult_begin (c : AudioControls.t) : AudioControls.t :=
  AudioControls.mk (AudioControls.status c) true.

(** The response of the result and status endpoints is read for its
    [status] only. *)
Definition getResult_settle (o : Settled AudioStatus.t) (c : AudioControls.t)
  : Completion AudioStatus.t * AudioControls.t :=
  match o with
  | Fulfilled st => (Returns st, AudioControls.mk st false)
  | Rejected _ _ => (Throws, AudioControls.mk (AudioControls.status c) false)
  end.

Definition pollStatus_settle (o : Settled AudioStatus.t) (c : AudioControls.t)
  : Completion AudioStatus.t * AudioControls.t :=
  match o with
  | Fulfilled st => (Returns st, AudioControls.mk st (AudioControls.isLoading c))
  | Rejected _ _ => (Returns AudioStatus.error, c)
  end.

(** A sample analysis result. *)
Definition sampleAnalysis : ApiFinalResult.t :=
  {| ApiFinalResult.session_id := "SESS_1";
     ApiFinalResult.final_state := SATISFIED;
     ApiFinalResult.confidence :=
       {[ "satisfied" := (7 # 10)%Q; "neutral" := (2 # 10)%Q;
          "dissatisfied" := (1 # 10)%Q ]};
     ApiFinalResult.reasoning := ["calm voice"; "smiling"];
     ApiFinalResult.recommendation := "" |}.

(** ** Partials that repeat what a view holds *)

(** The key is absent, or holds the value [v]. *)
Definition holds_same {A} (upd : option A) (v : A) : Prop :=
  match upd with
  | Some x => x = v
  | None => True
  end.

(** Every key the partial has holds the value the view has in that field. *)
Definition video_partial_within (p : VideoState.Partial.t) (v : VideoState.t) : Prop :=
  holds_same (VideoState.Partial.faceCount p) (VideoState.faceCount v) ∧
  holds_same (VideoState.Partial.dominantEmotion p) (VideoState.dominantEmotion v) ∧
  holds_same (VideoState.Partial.confidence p) (VideoState.confidence v) ∧
  holds_same (VideoState.Partial.totalFrames p) (VideoState.totalFrames v) ∧
  holds_same (VideoState.Partial.duration p) (VideoState.duration v) ∧
  holds_same (VideoState.Partial.emotionCounts p) (VideoState.emotionCounts v) ∧
  holds_same (VideoState.Partial.isRecording p) (VideoState.isRecording v).

(** ** The hook after disconnect *)

(** No transport is current, auto-reconnect is off and no reconnect timeout
    is pending. *)
Definition quiescent (h : Hook.t) : Prop :=
  Hook.wsRef h = None ∧
  Hook.shouldReconnectRef h = false ∧
  Hook.timeouts h = ∅.

(** The only reconnect timeout that can be pending is the one the ref
    holds. *)
Definition holds_every_timeout (h : Hook.t) : Prop :=
  ∀ t, is_Some (Hook.timeouts h !! t) → Hook.reconnectTimeoutRef h = Some t.

(** Two transports were opened by calling [connect] twice; both have failed,
    so two reconnect timeouts are pending and the ref holds the second. *)
Definition leakedWorld : World :=
  deliver_all sampleConfig [SocketClose 0; SocketClose 1]
    (with_hook (connect 0) connectingWorld).

(** Events that may follow a [disconnect] in the sample runs. *)
Definition afterDisconnectRun : list Event :=
  [PingInterval; SocketClose 0; ReconnectTimeout 0; SocketOpen 0;
   SocketMessage 0 9000 (Some WSEvent.pong); PingInterval].

(** * Properties *)

Local Close Scope string_scope.
Local Open Scope nat_scope.

(** ** The timeline buffer *)

Section slice.
Context {A : Type}.
Implicit Types l : list A.

Lemma length_slice_last (k : nat) l : length (slice_last k l) = min k (length l).
Proof. unfold slice_last. rewrite length_drop. lia. Qed.

Lemma slice_last_drop (k j : nat) l :
  j ≤ length l - k → slice_last k (drop j l) = slice_last k l.
Proof.
  intros Hj. unfold slice_last.
  rewrite length_drop, drop_drop. f_equal. lia.
Qed.

Lemma slice_last_snoc (k : nat) l x :
  slice_last k l ++ [x] = slice_last (S k) (l ++ [x]).
Proof.
  unfold slice_last. rewrite length_app. simpl.
  replace (length l + 1 - S k) with (length l - k) by lia.
  rewrite drop_app_le by lia. reflexivity.
Qed.

Lemma slice_last_app_absorb (k : nat) l l' :
  slice_last k (slice_last k l ++ l') = slice_last k (l ++ l').
Proof.
  unfold slice_last at 2.
  rewrite <- (drop_app_le l l') by lia.
  apply slice_last_drop. rewrite length_app. lia.
Qed.

Lemma slice_last_long (k : nat) l l' :
  k ≤ length l' → slice_last k (l ++ l') = slice_last k l'.
Proof.
  intros Hk. unfold slice_last. rewrite length_app.
  rewrite drop_app_ge by lia. f_equal. lia.
Qed.
End slice.

Lemma events_addEvent e s : events (addEvent e s) = slice_last 50 (events s ++ [e]).
Proof. unfold addEvent. simpl. apply slice_last_snoc. Qed.

Lemma addEvents_snoc es e s : addEvents (es ++ [e]) s = addEvent e (addEvents es s).
Proof. unfold addEvents. rewrite foldl_app. reflexivity. Qed.

Lemma events_addEvents es s :
  es ≠ [] → events (addEvents es s) = slice_last 50 (events s ++ es).
Proof.
  induction es as [|e es IH] using rev_ind; [done|]. intros _.
  rewrite addEvents_snoc, events_addEvent.
  destruct es as [|e' es'].
  - reflexivity.
  - rewrite IH by done.
    rewrite slice_last_app_absorb, <- app_assoc. reflexivity.
Qed.

Lemma run_snoc acts a s : run (acts ++ [a]) s = act a (run acts s).
Proof. unfold run. rewrite foldl_app. reflexivity. Qed.

Lemma act_events_bound a s :
  length (events s) ≤ 50 → length (events (act a s)) ≤ 50.
Proof.
  intros H. destruct a as [| | | | | | | | | | | | e | | [x|] | [x|] | [x|]];
    cbn; try exact H; try lia.
  rewrite length_app, length_slice_last. cbn [length]. lia.
Qed.

(** C7. A store state reached from the initial one by any actions holds at
    most 50 timeline events, and so does any state right after [addEvent];
    adding 60 events one by one leaves exactly 50 of them: the 60 without
    their first 10, in the order they were added. *)
Theorem timeline_bound :
  (∀ s, reachable s → length (events s) ≤ 50) ∧
  (∀ e s, length (events (addEvent e s)) ≤ 50) ∧
  (∀ es s, length es = 60 →
     events (addEvents es s) = drop 10 es ∧
     length (events (addEvents es s)) = 50).
Proof.
  split; [|split].
  - intros s [acts ->].
    induction acts as [|a acts IH] using rev_ind; [simpl; lia|].
    rewrite run_snoc. apply act_events_bound, IH.
  - intros e s. rewrite events_addEvent, length_slice_last. lia.
  - intros es s Hlen.
    assert (Hne : es ≠ []) by (intros ->; discriminate Hlen).
    rewrite (events_addEvents es s Hne).
    rewrite slice_last_long by lia.
    unfold slice_last. rewrite Hlen. simpl Nat.sub.
    split; [reflexivity|]. rewrite length_drop. lia.
Qed.

Lemma timeline_bound_witness :
  (reachable (run (AddEvent <$> sampleEvents 60) initialStore) ∧
   length (events (run (AddEvent <$> sampleEvents 60) initialStore)) ≤ 50) ∧
  (length (sampleEvents 60) = 60 ∧
   events (addEvents (sampleEvents 60) initialStore) = drop 10 (sampleEvents 60) ∧
   length (events (addEvents (sampleEvents 60) initialStore)) = 50).
Proof.
  assert (Hr : reachable (run (AddEvent <$> sampleEvents 60) initialStore))
    by (exists (AddEvent <$> sampleEvents 60); reflexivity).
  assert (Hl : length (sampleEvents 60) = 60) by reflexivity.
  destruct timeline_bound as (Hbound & _ & Hsixty).
  exact (conj (conj Hr (Hbound _ Hr))
              (conj Hl (Hsixty (sampleEvents 60) initialStore Hl))).
Defined.

(** The three frames of the end-to-end scenario: 10, 25 and 40 frames with
    5, 12 and 20 happy faces leave 40 frames and 20 happy faces. *)
Example three_frames_scenario :
  let frames := [statsFrame 10 5; statsFrame 25 12; statsFrame 40 20] in
  let w := deliver_all sampleConfig
             ((λ d, SocketMessage 0 0 (Some (WSEvent.video_stats (Some d)))) <$> frames)
             connectedWorld in
  VideoState.totalFrames (video (store w)) = 40%Q ∧
  VideoState.emotionCounts (video (store w)) !! "happy"%string = Some 20%Q.
Proof. vm_compute. split; reflexivity. Qed.

(** ** Merging partial updates *)

Lemma default_idem {A} (x : A) (o : option A) : default (default x o) o = default x o.
Proof. destruct o; reflexivity. Qed.

Lemma AudioState_spread_idem v p :
  AudioState.spread (AudioState.spread v p) p = AudioState.spread v p.
Proof. unfold AudioState.spread. simpl. rewrite !default_idem. reflexivity. Qed.

(** C9. Applying the same audio update twice in a row, through
    [setAudioState] or through [setAudioMetrics], leaves the store (and so
    its audio view) as one application does. *)
Theorem audio_merge_idempotent :
  (∀ p s, setAudioState p (setAudioState p s) = setAudioState p s) ∧
  (∀ m s, setAudioMetrics m (setAudioMetrics m s) = setAudioMetrics m s).
Proof.
  split.
  - intros p s. unfold setAudioState, set_audio. simpl.
    rewrite AudioState_spread_idem. reflexivity.
  - intros [m|] s; reflexivity.
Qed.

(** ** Session reset *)

(** C10. [resetSession] puts session metadata, audio, video, agent, the
    timeline, the error slot and the three legacy mirrors back to the values
    of the initial store, and leaves the connection state (all four of its
    fields), the role and the loading flag as they were. *)
Theorem resetSession_frame (s : SessionStore) :
  let s' := resetSession s in
  (session s' = session initialStore ∧
   audio s' = audio initialStore ∧
   video s' = video initialStore ∧
   agent s' = agent initialStore ∧
   events s' = events initialStore ∧
   error s' = error initialStore ∧
   videoStats s' = videoStats initialStore ∧
   audioMetrics s' = audioMetrics initialStore ∧
   finalResult s' = finalResult initialStore) ∧
  (ConnectionState.isConnected (connection s') = ConnectionState.isConnected (connection s) ∧
   ConnectionState.isConnecting (connection s') = ConnectionState.isConnecting (connection s) ∧
   ConnectionState.reconnectCount (connection s') = ConnectionState.reconnectCount (connection s) ∧
   ConnectionState.lastError (connection s') = ConnectionState.lastError (connection s) ∧
   role s' = role s ∧
   isLoading s' = isLoading s).
Proof. simpl. repeat split. Qed.

(** ** Updates that arrive after a reset *)

(** C1, as stated, fails: the store keeps no session token.  A metric
    request sent before the reset and settled after it is applied to the
    fresh view: the audio status turns to [recording] and the mirror holds
    the metrics. *)
Lemma stale_update_after_reset_applied :
  let w0 := with_poller (pollingEffect true "SESS_1"%string) initialWorld in
  let w1 := with_store resetSession w0 in
  let w2 := deliver sampleConfig (FetchResolved sampleMetrics) w1 in
  store w1 = resetSession initialStore ∧
  store w2 = setAudioMetrics (Some sampleMetrics) (resetSession initialStore) ∧
  AudioState.status (audio (store w1)) = AudioStatus.idle ∧
  AudioState.status (audio (store w2)) = AudioStatus.recording ∧
  store w2 ≠ store w1.
Proof.
  cbn. repeat split. intros H.
  apply (f_equal (λ s, AudioState.status (audio s))) in H. discriminate H.
Qed.

(** C1, amended.  An update applied after [resetSession] takes effect
    whatever session sent it.  [setAudioMetrics] with metrics [m] leaves the
    reset store with [m] as mirror and an audio view made of [m]'s three
    values, status [recording] and initial values elsewhere, which is never
    the store right after the reset: [setAudioMetrics] leaves the reset
    store as it is exactly when its argument is null.  [setVideoState]
    leaves the reset store with the initial video view merged with the
    partial: it leaves the reset store as it is exactly when every key the
    partial has holds the initial value of its field, as in the empty
    partial. *)
Theorem update_after_reset_takes_effect :
  (∀ m s,
     setAudioMetrics (Some m) (resetSession s) =
       set_audio
         {| AudioState.amplitude := LiveMetrics.amplitude m;
            AudioState.isSpeech := LiveMetrics.is_speech m;
            AudioState.duration := LiveMetrics.duration m;
            AudioState.status := AudioStatus.recording;
            AudioState.totalFrames := AudioState.totalFrames initialAudio;
            AudioState.speechFrames := AudioState.speechFrames initialAudio;
            AudioState.error := AudioState.error initialAudio |}
         (set_audioMetrics (Some m) (resetSession s)) ∧
     setAudioMetrics (Some m) (resetSession s) ≠ resetSession s) ∧
  (∀ p s,
     setVideoState p (resetSession s) =
       set_video (VideoState.spread initialVideo p) (resetSession s)) ∧
  (∀ s,
     setAudioMetrics None (resetSession s) = resetSession s ∧
     setVideoState VideoState.Partial.empty (resetSession s) = resetSession s) ∧
  (∀ x s, setAudioMetrics x (resetSession s) = resetSession s ↔ x = None) ∧
  (∀ p s, setVideoState p (resetSession s) = resetSession s
          ↔ video_partial_within p initialVideo).
Proof.
  split; [|split; [|split; [|split]]].
  - intros m s. split; [reflexivity|]. intros H.
    apply (f_equal audioMetrics) in H. discriminate H.
  - reflexivity.
  - intros s. split; reflexivity.
  - intros x s. split.
    + intros H. apply (f_equal audioMetrics) in H. destruct x; [discriminate H|reflexivity].
    + intros ->. reflexivity.
  - intros [fc de co tf du ec ir] s. split.
    + intros H. apply (f_equal video) in H. unfold video_partial_within.
      destruct fc, de, co, tf, du, ec, ir; simpl in *;
        try (injection H; intros; subst); repeat split.
    + intros (Hfc & Hde & Hco & Htf & Hdu & Hec & Hir). simpl in *.
      destruct fc, de, co, tf, du, ec, ir; simpl in *; subst; reflexivity.
Qed.

Lemma update_after_reset_takes_effect_witness :
  video_partial_within (framesPartial 0) initialVideo ∧
  setVideoState (framesPartial 0) (resetSession busyStore) = resetSession busyStore.
Proof.
  assert (H : video_partial_within (framesPartial 0) initialVideo)
    by (repeat split).
  exact (conj H
           (proj2 (proj2 (proj2 (proj2 (proj2 update_after_reset_takes_effect)))
                     (framesPartial 0) busyStore) H)).
Defined.

(** ** The final verdict *)

(** C2, as stated, fails: a verdict already set is replaced by a later one,
    through [setFinalResult] and through [setAgentState], and
    [setAgentState] can put it back to null, all without a reset. *)
Lemma final_verdict_overwritten :
  let s1 := setFinalResult (Some (sampleResult "SATISFIED")) initialStore in
  let neutral := AgentState.Partial.mk (Some (Some "NEUTRAL"%string)) None None None in
  let null := AgentState.Partial.mk (Some None) None None None in
  AgentState.finalState (agent s1) = Some "SATISFIED"%string ∧
  AgentState.finalState (agent (setFinalResult (Some (sampleResult "NEUTRAL")) s1))
    = Some "NEUTRAL"%string ∧
  AgentState.finalState (agent (setAgentState neutral s1)) = Some "NEUTRAL"%string ∧
  AgentState.finalState (agent (setAgentState null s1)) = None.
Proof. cbn. repeat split. Qed.

(** C2, amended.  The verdict follows the last writer: [setFinalResult]
    with a result sets it to the result's [final_state], [setAgentState]
    sets it to the partial's [finalState] when the partial has that key
    (null included), whatever was there before; [setFinalResult(null)], a
    partial without the key and every action that is not an agent write
    leave it as it is; [resetSession] and [resetAgent] make it null. *)
Theorem final_verdict_last_writer_wins :
  (∀ r s, AgentState.finalState (agent (setFinalResult (Some r) s))
            = Some (FinalResult.final_state r)) ∧
  (∀ s, agent (setFinalResult None s) = agent s) ∧
  (∀ p s, AgentState.finalState (agent (setAgentState p s))
            = default (AgentState.finalState (agent s))
                      (AgentState.Partial.finalState p)) ∧
  (∀ s, AgentState.finalState (agent (resetSession s)) = None ∧
        AgentState.finalState (agent (resetAgent s)) = None) ∧
  (∀ a s, writes_agent a = false → agent (act a s) = agent s).
Proof.
  repeat split.
  intros a s Ha.
  destruct a as [| | | | | | | | | | | | | | [x|] | [x|] | x];
    try discriminate Ha; reflexivity.
Qed.

Lemma final_verdict_last_writer_wins_witness :
  writes_agent (AddEvent (sampleEvent 0)) = false ∧
  agent (act (AddEvent (sampleEvent 0))
           (setFinalResult (Some (sampleResult "SATISFIED")) initialStore))
    = agent (setFinalResult (Some (sampleResult "SATISFIED")) initialStore).
Proof.
  split; [reflexivity|].
  apply (proj2 (proj2 (proj2 (proj2 final_verdict_last_writer_wins)))).
  reflexivity.
Defined.

(** ** Cumulative video counters *)

Lemma counts_le_refl c : counts_le c c.
Proof. intros k n H. exists n. split; [exact H | apply Qle_refl]. Qed.

Lemma video_step_le_iff u s :
  video_le (video s) (video (applyVideoUpdate u s)) ↔ supplies_no_less u (video s).
Proof.
  unfold video_le, supplies_no_less.
  destruct u as [p|d]; simpl.
  - destruct (VideoState.Partial.totalFrames p), (VideoState.Partial.emotionCounts p);
      simpl; intuition auto using Qle_refl, counts_le_refl.
  - reflexivity.
Qed.

(** C3, as stated, fails: a later update carrying a lower value lowers the
    counters.  [setVideoState] with 10 frames after 40; a frame with 10
    frames and 2 happy after one with 40 and 5; a frame that lacks both
    fields, which zeroes them; and [resetVideo], which is not a session
    reset. *)
Lemma video_counters_lowered :
  let s1 := setVideoState (framesPartial 40) initialStore in
  let t1 := applyVideoUpdate (ByFrame (statsFrame 40 5)) initialStore in
  let t2 := applyVideoUpdate (ByFrame (statsFrame 10 2)) t1 in
  let t3 := applyVideoUpdate (ByFrame VideoStatsData.empty) t1 in
  (VideoState.totalFrames (video (setVideoState (framesPartial 10) s1))
     < VideoState.totalFrames (video s1))%Q ∧
  ((VideoState.totalFrames (video t2) < VideoState.totalFrames (video t1))%Q ∧
   VideoState.emotionCounts (video t1) !! "happy"%string = Some 5%Q ∧
   VideoState.emotionCounts (video t2) !! "happy"%string = Some 2%Q) ∧
  ((VideoState.totalFrames (video t3) < VideoState.totalFrames (video t1))%Q ∧
   VideoState.emotionCounts (video t3) !! "happy"%string = Some 0%Q) ∧
  (VideoState.totalFrames (video (resetVideo s1))
     < VideoState.totalFrames (video s1))%Q.
Proof. vm_compute. repeat split. Qed.

(** C3, amended.  The video view follows the last writer, so along any
    sequence of updates (partials given to [setVideoState], [video_stats]
    frames) [totalFrames] and the per-emotion counts never go down exactly
    when every update carries values not below the ones held at that
    moment; [resetSession] puts them back to zero and to no counts. *)
Theorem video_counters_follow_writers :
  (∀ us s, nondecreasing_along s us ↔ supplied_nondecreasing s us) ∧
  (∀ s, VideoState.totalFrames (video (resetSession s)) = 0%Q ∧
        VideoState.emotionCounts (video (resetSession s)) = ∅).
Proof.
  split.
  - induction us as [|u us IH]; intros s; simpl; [reflexivity|].
    rewrite video_step_le_iff, IH. reflexivity.
  - intros s. split; reflexivity.
Qed.

(** ** Partial updates, field by field *)

Lemma merged_default {A} (old : A) (upd : option A) : merged old upd (default old upd).
Proof. destruct upd; reflexivity. Qed.

(** C8, as stated, fails for frames of the push channel: a [video_stats]
    frame that carries [total_frames] only still rewrites the face count,
    the dominant emotion, the confidence, the duration and the counts of
    the video view, none of which it mentions; the view is not the field
    level merge of the fields the frame has. *)
Lemma frame_rewrites_missing_fields :
  let w := with_store (fun _ => busyStore) initialWorld in
  let d := framesOnlyFrame 41 in
  let v := video (store w) in
  let v' := video (store (handleMessage sampleConfig 0
                            (Some (WSEvent.video_stats (Some d))) w)) in
  (VideoState.faceCount v = 2%Q ∧ VideoState.faceCount v' = 0%Q) ∧
  (VideoState.dominantEmotion v = "happy"%string ∧
   VideoState.dominantEmotion v' = "neutral"%string) ∧
  (VideoState.emotionCounts v !! "happy"%string = Some 5%Q ∧
   VideoState.emotionCounts v' !! "happy"%string = Some 0%Q) ∧
  (VideoState.emotionCounts v !! "surprise"%string = Some 1%Q ∧
   VideoState.emotionCounts v' !! "surprise"%string = None) ∧
  ¬ video_merged v (partial_of_frame d) v'.
Proof.
  vm_compute. repeat split; try reflexivity.
  intros (H & _). discriminate H.
Qed.

(** C8, amended.  [setAudioState], [setVideoState], [setAgentState] and
    [setConnectionState] give each field of their view the value of the
    partial's key when the key is there and leave it alone when it is not,
    and touch no other slot of the store.  A [video_stats] frame is not
    applied that way: with no [onMessage] callback, [handleMessage] leaves a
    video view in which every field is rewritten, a wire field that is
    missing counting as 0, as ['neutral'] or as no counts over four zeroed
    labels, with the face count 0 and the recording flag set. *)
Theorem partial_updates_merge_fieldwise :
  (∀ p s, audio_merged (audio s) p (audio (setAudioState p s)) ∧
          setAudioState p s = set_audio (audio (setAudioState p s)) s) ∧
  (∀ p s, video_merged (video s) p (video (setVideoState p s)) ∧
          setVideoState p s = set_video (video (setVideoState p s)) s) ∧
  (∀ p s, agent_merged (agent s) p (agent (setAgentState p s)) ∧
          setAgentState p s = set_agent (agent (setAgentState p s)) s) ∧
  (∀ p s, connection_merged (connection s) p (connection (setConnectionState p s)) ∧
          setConnectionState p s = set_connection (connection (setConnectionState p s)) s) ∧
  (∀ cfg now d w,
     WebSocketConfig.onMessage cfg = None →
     video (store (handleMessage cfg now (Some (WSEvent.video_stats (Some d))) w)) =
       {| VideoState.faceCount := 0;
          VideoState.dominantEmotion := str_or (VideoStatsData.dominant_emotion d) "neutral";
          VideoState.confidence := num_or (VideoStatsData.confidence d) 0;
          VideoState.totalFrames := num_or (VideoStatsData.total_frames d) 0;
          VideoState.duration := num_or (VideoStatsData.duration d) 0;
          VideoState.emotionCounts :=
            obj_or (VideoStatsData.emotion_counts d) ∅ ∪ defaultCounts;
          VideoState.isRecording := true |}).
Proof.
  repeat split; try apply merged_default.
  intros cfg now d w Hcb. unfold handleMessage. simpl. rewrite Hcb. reflexivity.
Qed.

Lemma partial_updates_merge_fieldwise_witness :
  WebSocketConfig.onMessage sampleConfig = None ∧
  VideoState.totalFrames
    (video (store (handleMessage sampleConfig 0
                     (Some (WSEvent.video_stats (Some (framesOnlyFrame 41))))
                     initialWorld))) = 41%Q.
Proof.
  split; [reflexivity|].
  rewrite (proj2 (proj2 (proj2 (proj2 partial_updates_merge_fieldwise)))
             sampleConfig 0%Z (framesOnlyFrame 41) initialWorld eq_refl).
  reflexivity.
Defined.

(** ** Heartbeat *)

Lemma handleMessage_quiet cfg now frame w :
  frame ≠ Some WSEvent.pong →
  let h' := hook (handleMessage cfg now frame w) in
  Hook.sockets h' = Hook.sockets (hook w) ∧
  Hook.wsRef h' = Hook.wsRef (hook w) ∧
  Hook.pingIntervalRef h' = Hook.pingIntervalRef (hook w) ∧
  Hook.missedPongsRef h' = Hook.missedPongsRef (hook w).
Proof.
  intros Hf. unfold handleMessage.
  destruct frame as [ev|]; [|done].
  destruct ev as [[d|]|[d|]|[d|]| |[r|]|[m|]| | | |ty]; try done;
    simpl; destruct (WebSocketConfig.onMessage cfg); done.
Qed.

Lemma probing_message cfg i n j now frame w :
  frame ≠ Some WSEvent.pong →
  probing i n w → probing i n (deliver cfg (SocketMessage j now frame) w).
Proof.
  intros Hf (Hr & Ho & Hp & Hm). simpl.
  destruct (socket_state w j) as [[]|]; try done.
  destruct (handleMessage_quiet cfg now frame w Hf) as (Hs' & Hr' & Hp' & Hm').
  unfold probing, socket_state. rewrite Hs', Hr', Hp', Hm'. done.
Qed.

Lemma current_is_open_probing i n w : probing i n w → current_is_open (hook w) = true.
Proof.
  intros (Hr & Ho & _). unfold current_is_open, current_readyState.
  unfold socket_state in Ho. rewrite Hr. simpl. rewrite Ho. reflexivity.
Qed.

Lemma probing_tick cfg i n w :
  (n < MAX_MISSED_PONGS)%Z →
  probing i n w → probing i (n + 1) (deliver cfg PingInterval w).
Proof.
  intros Hn Hpr. pose proof (current_is_open_probing _ _ _ Hpr) as Hopen.
  destruct Hpr as (Hr & Ho & Hp & Hm). simpl. rewrite Hp.
  unfold pingCallback, with_hook. simpl. rewrite Hr, Hopen. simpl. rewrite Hm.
  destruct (Z.ltb_spec MAX_MISSED_PONGS (n + 1)) as [Hgt|_]; [lia|].
  done.
Qed.

Lemma probing_last_tick cfg i w :
  probing i MAX_MISSED_PONGS w →
  socket_state (deliver cfg PingInterval w) i = Some ReadyState.CLOSING.
Proof.
  intros Hpr. pose proof (current_is_open_probing _ _ _ Hpr) as Hopen.
  destruct Hpr as (Hr & Ho & Hp & Hm). simpl. rewrite Hp.
  unfold pingCallback, with_hook, socket_state. simpl. rewrite Hr, Hopen. simpl.
  rewrite Hm. simpl.
  unfold socket_state in Ho. rewrite list_lookup_alter_eq.
  destruct (Hook.sockets (hook w) !! i) as [k|]; [|done].
  simpl in *. injection Ho as Ho. unfold Socket.close. rewrite Ho. reflexivity.
Qed.

Lemma probing_poll cfg i n e w :
  poll_event e = true → probing i n w → probing i n (deliver cfg e w).
Proof.
  intros He Hpr. destruct e as [j|j now frame|j|j| |t| |m|]; try discriminate He;
    cbn [deliver].
  - destruct (Poller.intervalRef (poller w)); exact Hpr.
  - destruct (Poller.inFlight (poller w)); exact Hpr.
  - destruct (Poller.inFlight (poller w)); exact Hpr.
Qed.

Lemma probing_quiet_run cfg i es : ∀ n w,
  forallb quiet es = true →
  (n + Z.of_nat (ticks es) ≤ MAX_MISSED_PONGS)%Z →
  probing i n w →
  probing i (n + Z.of_nat (ticks es)) (deliver_all cfg es w).
Proof.
  induction es as [|e es IH]; intros n w Hq Hn Hpr.
  - simpl. rewrite Z.add_0_r. exact Hpr.
  - simpl in Hq. apply andb_prop in Hq as [He Hq].
    unfold deliver_all. simpl foldl. fold (deliver_all cfg es (deliver cfg e w)).
    destruct e as [j|j now frame|j|j| |t| |m|]; try discriminate He.
    + simpl ticks in *. apply IH; [done..|].
      apply probing_message; [|done].
      intros ->. discriminate He.
    + simpl ticks in *.
      replace (n + Z.of_nat (S (ticks es)))%Z with ((n + 1) + Z.of_nat (ticks es))%Z by lia.
      apply IH; [done|lia|]. apply probing_tick; [lia|done].
    + simpl ticks in *. apply IH; [done..|]. apply probing_poll; done.
    + simpl ticks in *. apply IH; [done..|]. apply probing_poll; done.
    + simpl ticks in *. apply IH; [done..|]. apply probing_poll; done.
Qed.

(** ** Opening the transport *)

Lemma connect_when_open c h : current_is_open h = true → connect c h = h.
Proof. intros H. unfold connect. rewrite H. reflexivity. Qed.

Lemma connect_when_not_open c h :
  current_is_open h = false →
  Hook.sockets (connect c h) = Hook.sockets h ++ [Socket.mk ReadyState.CONNECTING c] ∧
  Hook.wsRef (connect c h) = Some (length (Hook.sockets h)).
Proof. intros H. unfold connect. rewrite H. split; reflexivity. Qed.

(** C6.  [connect] called again while the first transport is still
    connecting: the hook reports [isConnecting], yet a second transport is
    created next to the first and becomes the current one.  Called on a
    connected hook it changes nothing. *)
Theorem connect_again_while_connecting :
  let h1 := hook connectingWorld in
  let h2 := connect (WebSocketState.reconnectCount (Hook.state h1)) h1 in
  let h3 := hook connectedWorld in
  (Socket.readyState <$> Hook.sockets h1 = [ReadyState.CONNECTING] ∧
   WebSocketState.isConnecting (Hook.state h1) = true ∧
   Hook.wsRef h1 = Some 0) ∧
  (Socket.readyState <$> Hook.sockets h2
     = [ReadyState.CONNECTING; ReadyState.CONNECTING] ∧
   Hook.wsRef h2 = Some 1) ∧
  connect (WebSocketState.reconnectCount (Hook.state h3)) h3 = h3.
Proof. vm_compute. repeat split. Qed.

(** ** Cancellation *)

Lemma disconnect_refs h :
  Hook.pingIntervalRef (disconnect h) = false ∧
  Hook.reconnectTimeoutRef (disconnect h) = None ∧
  Hook.shouldReconnectRef (disconnect h) = false ∧
  Hook.wsRef (disconnect h) = None ∧
  Hook.state (disconnect h) = WebSocketState.initial.
Proof.
  destruct h as [ss ts nt ps [i|] pr [t|] sr mp st]; repeat split.
Qed.

Lemma disconnect_timeouts h :
  Hook.timeouts (disconnect h) =
    match Hook.reconnectTimeoutRef h with
    | Some t => delete t (Hook.timeouts h)
    | None => Hook.timeouts h
    end.
Proof.
  destruct h as [ss ts nt ps [i|] pr [t|] sr mp st]; reflexivity.
Qed.

Lemma disconnect_sockets h :
  Hook.sockets (disconnect h) =
    match Hook.wsRef h with
    | Some i => alter Socket.close i (Hook.sockets h)
    | None => Hook.sockets h
    end.
Proof.
  destruct h as [ss ts nt ps [i|] pr [t|] sr mp st]; reflexivity.
Qed.

Lemma onclose_after_disconnect cfg c w :
  Hook.shouldReconnectRef (hook w) = false →
  Hook.timeouts (hook (onclose cfg c w)) = Hook.timeouts (hook w) ∧
  Hook.sockets (hook (onclose cfg c w)) = Hook.sockets (hook w) ∧
  Hook.shouldReconnectRef (hook (onclose cfg c w)) = false ∧
  store (onclose cfg c w) = default id (WebSocketConfig.onDisconnect cfg) (store w).
Proof.
  destruct w as [[ss ts nt ps wr pr rt sr mp st] po s]. simpl. intros ->.
  unfold onclose. simpl. repeat split.
Qed.

Lemma disablePolling_eq sid p : disablePolling sid p = Poller.mk false (Poller.inFlight p).
Proof. reflexivity. Qed.

(** * Further properties of the store *)

(** ** Partials in sequence *)

Lemma default_over {A} (x : A) (p q : option A) :
  default (default x p) q = default x (over p q).
Proof. destruct p, q; reflexivity. Qed.

Lemma over_Some_match {A} (old : option A) (p q : option A) :
  match q with
  | Some b => Some b
  | None => match p with Some b => Some b | None => old end
  end
  = match over p q with Some b => Some b | None => old end.
Proof. destruct p, q; reflexivity. Qed.

(** X1. Two partials applied one after the other amount to one partial, the
    second spread over the first; this holds for the five merging setters.
    A partial with no key changes nothing. *)
Theorem partials_compose :
  (∀ p q s, setAudioState q (setAudioState p s)
            = setAudioState (audio_partial_over p q) s) ∧
  (∀ p q s, setVideoState q (setVideoState p s)
            = setVideoState (video_partial_over p q) s) ∧
  (∀ p q s, setAgentState q (setAgentState p s)
            = setAgentState (agent_partial_over p q) s) ∧
  (∀ p q s, setConnectionState q (setConnectionState p s)
            = setConnectionState (connection_partial_over p q) s) ∧
  (∀ p q s, setSession q (setSession p s)
            = setSession (session_partial_over p q) s) ∧
  (∀ s, setAudioState AudioState.Partial.empty s = s ∧
        setVideoState VideoState.Partial.empty s = s ∧
        setAgentState AgentState.Partial.empty s = s ∧
        setConnectionState ConnectionState.Partial.empty s = s).
Proof.
  repeat split.
  - intros p q s. unfold setAudioState, set_audio, AudioState.spread. simpl.
    rewrite !default_over. reflexivity.
  - intros p q s. unfold setVideoState, set_video, VideoState.spread. simpl.
    rewrite !default_over. reflexivity.
  - intros p q s. unfold setAgentState, set_agent, AgentState.spread. simpl.
    rewrite !default_over. reflexivity.
  - intros p q s. unfold setConnectionState, set_connection, ConnectionState.spread.
    simpl. rewrite !default_over. reflexivity.
  - intros p q s. unfold setSession, set_session, SessionMeta.spread. simpl.
    rewrite !default_over, !over_Some_match. reflexivity.
  - destruct s as [r m [] v g c l e evs vs am fr]. reflexivity.
  - destruct s as [r m a [] g c l e evs vs am fr]. reflexivity.
  - destruct s as [r m a v [] c l e evs vs am fr]. reflexivity.
  - destruct s as [r m a v g [] l e evs vs am fr]. reflexivity.
Qed.

(** ** Footprints *)

Ltac split_options :=
  repeat match goal with
         | x : option _ |- _ => destruct x
         end.

(** X2. An action leaves every slot it does not write exactly as it was. *)
Theorem action_frame (a : Action) (x : Slot) (s : SessionStore) :
  slot_in x (writes a) = false → same_slot x s (act a s).
Proof.
  intros H. destruct a, x; try discriminate H; split_options; reflexivity.
Qed.

Lemma action_frame_witness :
  slot_in connection_slot (writes (SetAudioMetrics (Some sampleMetrics))) = false ∧
  same_slot connection_slot busyStore
    (act (SetAudioMetrics (Some sampleMetrics)) busyStore).
Proof.
  exact (conj eq_refl
           (action_frame (SetAudioMetrics (Some sampleMetrics)) connection_slot
              busyStore eq_refl)).
Defined.

(** X3. Two actions that write no slot in common can be applied in either
    order: the store ends up the same. *)
Theorem disjoint_actions_commute (a b : Action) (s : SessionStore) :
  disjoint_writes a b = true → act a (act b s) = act b (act a s).
Proof.
  intros H. destruct a, b; try discriminate H; split_options; reflexivity.
Qed.

Lemma disjoint_actions_commute_witness :
  disjoint_writes (SetAudioMetrics (Some sampleMetrics))
                  (SetVideoState (framesPartial 41)) = true ∧
  act (SetAudioMetrics (Some sampleMetrics))
      (act (SetVideoState (framesPartial 41)) busyStore)
  = act (SetVideoState (framesPartial 41))
        (act (SetAudioMetrics (Some sampleMetrics)) busyStore).
Proof.
  exact (conj eq_refl
           (disjoint_actions_commute (SetAudioMetrics (Some sampleMetrics))
              (SetVideoState (framesPartial 41)) busyStore eq_refl)).
Defined.

(** X4. [resetSession] forgets the session: after any actions that write
    neither the role, the connection state nor the loading flag, the reset
    store is the one a reset would have given before them.  In particular a
    second reset changes nothing. *)
Theorem resetSession_forgets :
  (∀ acts s, forallb spares_kept_slots acts = true →
             resetSession (run acts s) = resetSession s) ∧
  (∀ s, resetSession (resetSession s) = resetSession s).
Proof.
  split; [|reflexivity].
  induction acts as [|a acts IH]; intros s H; [reflexivity|].
  simpl in H. apply andb_prop in H as [Ha H].
  change (run (a :: acts) s) with (run acts (act a s)).
  rewrite IH by exact H.
  destruct a; try discriminate Ha; split_options; reflexivity.
Qed.

Lemma resetSession_forgets_witness :
  forallb spares_kept_slots
    [SetAudioMetrics (Some sampleMetrics); AddEvent (sampleEvent 1);
     SetFinalResult (Some (sampleResult "NEUTRAL"))] = true ∧
  resetSession
    (run [SetAudioMetrics (Some sampleMetrics); AddEvent (sampleEvent 1);
          SetFinalResult (Some (sampleResult "NEUTRAL"))] busyStore)
  = resetSession busyStore.
Proof.
  exact (conj eq_refl
           (proj1 resetSession_forgets
              [SetAudioMetrics (Some sampleMetrics); AddEvent (sampleEvent 1);
               SetFinalResult (Some (sampleResult "NEUTRAL"))] busyStore eq_refl)).
Defined.

(** ** More on the timeline *)

Lemma slice_last_short {A} (k : nat) (l : list A) : length l ≤ k → slice_last k l = l.
Proof.
  intros H. unfold slice_last. replace (length l - k) with 0 by lia. reflexivity.
Qed.

(** X5. Adding events one by one leaves the last 50 of the old buffer
    followed by the new events.  While old and new events together number
    at most 50 nothing is evicted; on a buffer that is full, [addEvent]
    drops the oldest event and only that one. *)
Theorem timeline_fifo :
  (∀ es s, es ≠ [] →
     events (addEvents es s) = slice_last 50 (events s ++ es)) ∧
  (∀ es s, length (events s) + length es ≤ 50 →
     events (addEvents es s) = events s ++ es) ∧
  (∀ e oldest rest s, events s = oldest :: rest → length rest = 49 →
     events (addEvent e s) = rest ++ [e]).
Proof.
  split; [exact events_addEvents|split].
  - intros es s Hlen. destruct es as [|e es]; [simpl; rewrite app_nil_r; reflexivity|].
    rewrite events_addEvents by discriminate.
    apply slice_last_short. rewrite length_app. exact Hlen.
  - intros e oldest rest s Hev Hlen. unfold addEvent. simpl. rewrite Hev.
    unfold slice_last. simpl length. rewrite Hlen. reflexivity.
Qed.

Lemma timeline_fifo_witness :
  (sampleEvents 3 ≠ [] ∧
   events (addEvents (sampleEvents 3) initialStore)
     = slice_last 50 (events initialStore ++ sampleEvents 3)) ∧
  (length (events initialStore) + length (sampleEvents 3) ≤ 50 ∧
   events (addEvents (sampleEvents 3) initialStore)
     = events initialStore ++ sampleEvents 3) ∧
  (events (addEvents (sampleEvents 50) initialStore)
     = sampleEvent 0 :: drop 1 (sampleEvents 50) ∧
   length (drop 1 (sampleEvents 50)) = 49 ∧
   events (addEvent (sampleEvent 50) (addEvents (sampleEvents 50) initialStore))
     = drop 1 (sampleEvents 50) ++ [sampleEvent 50]).
Proof.
  assert (Hne : sampleEvents 3 ≠ []) by discriminate.
  assert (Hle : length (events initialStore) + length (sampleEvents 3) ≤ 50)
    by (simpl; lia).
  assert (Hev : events (addEvents (sampleEvents 50) initialStore)
                = sampleEvent 0 :: drop 1 (sampleEvents 50)) by reflexivity.
  assert (Hlen : length (drop 1 (sampleEvents 50)) = 49) by reflexivity.
  destruct timeline_fifo as (Hgen & Hroom & Hfull).
  exact (conj (conj Hne (Hgen _ initialStore Hne))
           (conj (conj Hle (Hroom _ initialStore Hle))
                 (conj Hev (conj Hlen (Hfull (sampleEvent 50) _ _ _ Hev Hlen))))).
Defined.

Lemma js_slice_from_last {A} (k : nat) (l : list A) :
  0 < k → js_slice_from (- Z.of_nat k) l = slice_last k l.
Proof.
  intros Hk. unfold js_slice_from, slice_last.
  destruct (Z.ltb_spec (- Z.of_nat k) 0) as [_|H]; [|lia].
  f_equal. lia.
Qed.

(** X6. The timeline panel shows the newest events first.  For a positive
    [maxEvents] it shows the last [maxEvents] events of the buffer in
    reverse order, so at most that many, and an event that was just added
    comes first.  With [maxEvents = 0] the slice starts at index 0, and the
    panel shows the whole buffer, not nothing. *)
Theorem timeline_display :
  (∀ k evs, (0 < k)%Z →
     displayEvents k evs = reverse (slice_last (Z.to_nat k) evs) ∧
     length (displayEvents k evs) = min (Z.to_nat k) (length evs)) ∧
  (∀ k e s, (0 < k)%Z →
     head (displayEvents k (events (addEvent e s))) = Some e) ∧
  (∀ evs, displayEvents 0 evs = reverse evs).
Proof.
  assert (Hpos : ∀ k evs, (0 < k)%Z →
            displayEvents k evs = reverse (slice_last (Z.to_nat k) evs)).
  { intros k evs Hk. unfold displayEvents.
    rewrite <- (Z2Nat.id k) at 1 by lia.
    rewrite js_slice_from_last by lia. reflexivity. }
  split; [|split].
  - intros k evs Hk. split; [apply Hpos, Hk|].
    rewrite Hpos by exact Hk. rewrite length_reverse. apply length_slice_last.
  - intros k e s Hk. rewrite Hpos by exact Hk.
    unfold addEvent. simpl events.
    set (l := slice_last 49 (events s)).
    unfold slice_last. rewrite length_app. simpl length.
    rewrite drop_app_le by lia. rewrite reverse_snoc. reflexivity.
  - intros evs. unfold displayEvents, js_slice_from.
    change (- 0)%Z with 0%Z. change (0 <? 0)%Z with false. cbv iota.
    replace (Z.to_nat (Z.min 0 (Z.of_nat (length evs)))) with 0 by lia.
    reflexivity.
Qed.

Lemma timeline_display_witness :
  (0 < 10)%Z ∧
  displayEvents 10 (sampleEvents 12) = reverse (slice_last 10 (sampleEvents 12)) ∧
  length (displayEvents 10 (sampleEvents 12)) = 10 ∧
  head (displayEvents 10 (events (addEvent (sampleEvent 7) busyStore)))
    = Some (sampleEvent 7).
Proof.
  assert (Hk : (0 < 10)%Z) by lia.
  destruct timeline_display as (Hshow & Hnew & _).
  destruct (Hshow 10%Z (sampleEvents 12) Hk) as [Heq Hlen].
  exact (conj Hk (conj Heq (conj Hlen (Hnew 10%Z (sampleEvent 7) busyStore Hk)))).
Defined.

(** * Further properties of the push channel *)

(** ** What a frame can and cannot do *)

Lemma handleMessage_hook cfg now frame w :
  let w' := handleMessage cfg now frame w in
  same_connection (hook w) (hook w') ∧
  poller w' = poller w ∧
  Hook.missedPongsRef (hook w')
    = match frame with
      | Some WSEvent.pong => 0%Z
      | _ => Hook.missedPongsRef (hook w)
      end.
Proof.
  unfold handleMessage, same_connection.
  destruct frame as [ev|]; [|done].
  destruct ev as [[d|]|[d|]|[d|]| |[r|]|[m|]| | | |ty];
    simpl; destruct (WebSocketConfig.onMessage cfg); done.
Qed.

(** X7. No frame, whatever its type or payload, touches the connection:
    transports, timers, refs and the frames sent stay as they are, and so
    does the poller.  The only ref a frame changes is the count of missed
    pongs, which a [pong] puts to 0 and every other frame leaves alone. *)
Theorem frames_leave_connection_alone cfg now frame w :
  let w' := handleMessage cfg now frame w in
  same_connection (hook w) (hook w') ∧
  poller w' = poller w ∧
  Hook.missedPongsRef (hook w')
    = match frame with
      | Some WSEvent.pong => 0%Z
      | _ => Hook.missedPongsRef (hook w)
      end.
Proof. exact (handleMessage_hook cfg now frame w). Qed.

(** X8. Which frames reach the store.  A frame that cannot be parsed
    changes nothing at all.  A frame whose case needs a [data] object that
    is missing is dropped before the store and before [onMessage].  Status,
    completion, connected, heartbeat, pong and unknown frames, and a
    [final_result] without data, reach the store through [onMessage] only.
    An [error] frame writes its message into the error slot and, without
    an [onMessage] callback, nothing else. *)
Theorem frames_store_effect cfg now w :
  handleMessage cfg now None w = w ∧
  (∀ ev, lacks_data ev = true →
     store (handleMessage cfg now (Some ev) w) = store w) ∧
  (∀ ev, carries_no_update ev = true →
     store (handleMessage cfg now (Some ev) w)
       = match WebSocketConfig.onMessage cfg with
         | Some f => f ev (store w)
         | None => store w
         end) ∧
  (∀ message, WebSocketConfig.onMessage cfg = None →
     store (handleMessage cfg now (Some (WSEvent.error (Some message))) w)
       = set_error message (store w)).
Proof.
  split; [reflexivity|]. split; [|split].
  - intros ev H. destruct ev as [[d|]|[d|]|[d|]| |[r|]|[m|]| | | |ty];
      try discriminate H; reflexivity.
  - intros ev H. unfold handleMessage.
    destruct ev as [[d|]|[d|]|[d|]| |[r|]|[m|]| | | |ty];
      try discriminate H; simpl; destruct (WebSocketConfig.onMessage cfg);
      reflexivity.
  - intros message H. unfold handleMessage. simpl. rewrite H. reflexivity.
Qed.

Lemma frames_store_effect_witness :
  (lacks_data (WSEvent.video_stats None) = true ∧
   store (handleMessage (dashboardConfig "SESS_1"%string 1000) 0
            (Some (WSEvent.video_stats None)) dashboardWorld)
     = store dashboardWorld) ∧
  (carries_no_update WSEvent.heartbeat = true ∧
   store (handleMessage sampleConfig 0 (Some WSEvent.heartbeat) connectedWorld)
     = store connectedWorld) ∧
  (WebSocketConfig.onMessage sampleConfig = None ∧
   store (handleMessage sampleConfig 0
            (Some (WSEvent.error (Some (Some "mic unplugged"%string))))
            connectedWorld)
     = set_error (Some "mic unplugged"%string) (store connectedWorld)).
Proof.
  destruct (frames_store_effect (dashboardConfig "SESS_1"%string 1000) 0%Z
              dashboardWorld) as (_ & Hdrop & _).
  destruct (frames_store_effect sampleConfig 0%Z connectedWorld)
    as (_ & _ & Hlive & Herr).
  exact (conj (conj eq_refl (Hdrop (WSEvent.video_stats None) eq_refl))
           (conj (conj eq_refl (Hlive WSEvent.heartbeat eq_refl))
                 (conj eq_refl (Herr (Some "mic unplugged"%string) eq_refl)))).
Defined.

(** ** The count of missed pongs *)

Lemma current_is_open_ext h h' :
  Hook.wsRef h' = Hook.wsRef h → Hook.sockets h' = Hook.sockets h →
  current_is_open h' = current_is_open h.
Proof.
  intros Hr Hs. unfold current_is_open, current_readyState. rewrite Hr, Hs.
  reflexivity.
Qed.

Lemma missed_in_bounds_ext h h' :
  Hook.wsRef h' = Hook.wsRef h → Hook.sockets h' = Hook.sockets h →
  Hook.missedPongsRef h' = Hook.missedPongsRef h →
  missed_in_bounds h → missed_in_bounds h'.
Proof.
  intros Hr Hs Hm [Hb Ho]. unfold missed_in_bounds.
  rewrite Hm, (current_is_open_ext h h' Hr Hs). done.
Qed.

Lemma missed_in_bounds_zero h : Hook.missedPongsRef h = 0%Z → missed_in_bounds h.
Proof. intros H. unfold missed_in_bounds, MAX_MISSED_PONGS. rewrite H. lia. Qed.

Lemma connect_fresh_not_open c h :
  current_is_open h = false → current_is_open (connect c h) = false.
Proof.
  intros H. unfold connect. rewrite H.
  unfold current_is_open, current_readyState. simpl.
  rewrite list_lookup_middle by reflexivity. reflexivity.
Qed.

Lemma connect_missed_in_bounds c h :
  missed_in_bounds h → missed_in_bounds (connect c h).
Proof.
  intros [Hb Ho]. destruct (current_is_open h) eqn:Hopen.
  - rewrite connect_when_open by exact Hopen. split; [exact Hb|].
    rewrite Hopen. exact Ho.
  - split.
    + unfold connect. rewrite Hopen. exact Hb.
    + rewrite connect_fresh_not_open by exact Hopen. discriminate.
Qed.

Lemma disconnect_missed h : Hook.missedPongsRef (disconnect h) = 0%Z.
Proof. destruct h as [ss ts nt ps [i|] pr [t|] sr mp st]; reflexivity. Qed.

Lemma alter_close_not_open (i : nat) (l : list Socket.t) :
  (Socket.readyState <$> l !! i) = Some ReadyState.OPEN →
  (Socket.readyState <$> alter Socket.close i l !! i) ≠ Some ReadyState.OPEN.
Proof.
  intros H. rewrite list_lookup_alter_eq.
  destruct (l !! i) as [k|]; [|discriminate H].
  simpl in *. injection H as H. unfold Socket.close. rewrite H. discriminate.
Qed.

Lemma pingCallback_missed_in_bounds h :
  missed_in_bounds h → missed_in_bounds (pingCallback h).
Proof.
  intros [Hb Ho]. unfold pingCallback.
  destruct (Hook.wsRef h) as [i|] eqn:Hr; [|done].
  destruct (current_is_open h) eqn:Hopen; [|split; [done|by rewrite Hopen]].
  specialize (Ho eq_refl). simpl.
  destruct (Z.ltb_spec MAX_MISSED_PONGS (Hook.missedPongsRef h + 1)) as [Hgt|Hle].
  - split; [simpl; unfold MAX_MISSED_PONGS in *; lia|].
    intros Hopen'. exfalso.
    unfold current_is_open, current_readyState in Hopen, Hopen'.
    simpl in Hopen'. rewrite Hr in Hopen, Hopen'. simpl in Hopen, Hopen'.
    destruct (Socket.readyState <$> Hook.sockets h !! i) as [[]|] eqn:Hs;
      try discriminate Hopen.
    pose proof (alter_close_not_open i (Hook.sockets h) Hs) as Hno.
    destruct (Socket.readyState <$> alter Socket.close i (Hook.sockets h) !! i)
      as [[]|]; try discriminate Hopen'. done.
  - split; [simpl; unfold MAX_MISSED_PONGS in *; lia|].
    intros _. simpl. exact Hle.
Qed.

Lemma deliver_missed_in_bounds cfg e w :
  missed_in_bounds (hook w) → missed_in_bounds (hook (deliver cfg e w)).
Proof.
  intros Hinv. destruct e as [i|i now frame|i|i| |t| |m|]; cbn [deliver].
  - destruct (socket_state w i) as [[]|]; try exact Hinv.
    apply missed_in_bounds_zero. reflexivity.
  - destruct (socket_state w i) as [[]|]; try exact Hinv.
    destruct (handleMessage_hook cfg now frame w)
      as ((Hs & _ & _ & _ & Hr & _) & _ & Hm).
    destruct frame as [[]|];
      try (eapply missed_in_bounds_ext; [exact Hr|exact Hs|exact Hm|exact Hinv]).
    apply missed_in_bounds_zero. exact Hm.
  - destruct (socket_state w i) as [[]|]; exact Hinv.
  - destruct (Hook.sockets (hook w) !! i) as [k|]; [|exact Hinv].
    destruct (Socket.readyState k); try exact Hinv;
      apply missed_in_bounds_zero; unfold onclose;
      match goal with |- context [if ?b then _ else _] => destruct b end;
      reflexivity.
  - destruct (Hook.pingIntervalRef (hook w)); [|exact Hinv].
    apply pingCallback_missed_in_bounds, Hinv.
  - destruct (Hook.timeouts (hook w) !! t) as [c|]; [|exact Hinv].
    apply connect_missed_in_bounds.
    eapply missed_in_bounds_ext; [| | |exact Hinv]; reflexivity.
  - destruct (Poller.intervalRef (poller w)); exact Hinv.
  - destruct (Poller.inFlight (poller w)); exact Hinv.
  - destruct (Poller.inFlight (poller w)); exact Hinv.
Qed.

Lemma invoke_missed_in_bounds cfg c h :
  missed_in_bounds h → missed_in_bounds (invoke cfg c h).
Proof.
  intros Hinv. destruct c as [c| | |]; simpl.
  - apply connect_missed_in_bounds, Hinv.
  - apply missed_in_bounds_zero, disconnect_missed.
  - unfold autoConnectEffect.
    destruct (WebSocketConfig.autoConnect cfg
              && negb (String.eqb (WebSocketConfig.sessionId cfg) ""));
      [|exact Hinv].
    apply connect_missed_in_bounds.
    eapply missed_in_bounds_ext; [| | |exact Hinv]; reflexivity.
  - apply missed_in_bounds_zero, disconnect_missed.
Qed.

(** X9. However events and calls interleave (any socket, timer and poll
    events, any calls to [connect], [disconnect], the effect and its
    cleanup), from the fresh hook the count of missed pongs stays within
    0..4, and within 0..3 whenever the current transport is open: the
    heartbeat never has more than MAX_MISSED_PONGS + 1 probes pending. *)
Theorem missed_pongs_bounded cfg (xs : list Step) :
  missed_in_bounds (hook (steps cfg xs initialWorld)).
Proof.
  induction xs as [|x xs IH] using rev_ind.
  - apply missed_in_bounds_zero. reflexivity.
  - unfold steps. rewrite foldl_app. simpl. fold (steps cfg xs initialWorld).
    destruct x as [e|c]; simpl.
    + apply deliver_missed_in_bounds, IH.
    + apply invoke_missed_in_bounds, IH.
Qed.

(** ** Close events of transports other than the current one *)


Lemma alter_last_of_replicate {A} (f : A → A) (n : nat) (x y : A) :
  alter f n (replicate n x ++ [y]) = replicate n x ++ [f y].
Proof.
  rewrite alter_app_r_alt by (rewrite length_replicate; lia).
  rewrite length_replicate, Nat.sub_diag. reflexivity.
Qed.

Lemma retry_close cfg n po st :
  (0 < WebSocketConfig.reconnectAttempts cfg)%Z →
  deliver cfg (SocketClose n) (mkWorld (retryingHook n) po st)
  = mkWorld
      {| Hook.sockets := replicate n (Socket.mk ReadyState.CLOSED 0)
                         ++ [Socket.mk ReadyState.CLOSED 0];
         Hook.timeouts := <[n := 0%Z]> ∅;
         Hook.nextTimeout := S n;
         Hook.pings := [];
         Hook.wsRef := Some n;
         Hook.pingIntervalRef := false;
         Hook.reconnectTimeoutRef := Some n;
         Hook.shouldReconnectRef := true;
         Hook.missedPongsRef := 0;
         Hook.state := WebSocketState.mk false false None None (Z.of_nat n) None 0 |}
      po (default id (WebSocketConfig.onDisconnect cfg) st).
Proof.
  intros Hatt. apply Z.ltb_lt in Hatt.
  assert (Hn : Hook.sockets (retryingHook n) !! n
               = Some (Socket.mk ReadyState.CONNECTING 0)).
  { simpl. apply list_lookup_middle. rewrite length_replicate. reflexivity. }
  cbn [deliver hook]. rewrite Hn. cbn [Socket.readyState Socket.seenReconnectCount].
  unfold onclose. cbn. rewrite Hatt.
  unfold with_hook, call, with_store, set_reconnect_timeout, mark_socket, with_hook.
  cbn. rewrite alter_last_of_replicate. reflexivity.
Qed.

Lemma retry_timeout cfg n po st :
  deliver cfg (ReconnectTimeout n)
    (mkWorld
      {| Hook.sockets := replicate n (Socket.mk ReadyState.CLOSED 0)
                         ++ [Socket.mk ReadyState.CLOSED 0];
         Hook.timeouts := <[n := 0%Z]> ∅;
         Hook.nextTimeout := S n;
         Hook.pings := [];
         Hook.wsRef := Some n;
         Hook.pingIntervalRef := false;
         Hook.reconnectTimeoutRef := Some n;
         Hook.shouldReconnectRef := true;
         Hook.missedPongsRef := 0;
         Hook.state := WebSocketState.mk false false None None (Z.of_nat n) None 0 |}
      po st)
  = mkWorld (retryingHook (S n)) po st.
Proof.
  cbn [deliver hook Hook.timeouts]. rewrite lookup_insert_eq.
  unfold with_hook. cbn [hook poller store]. f_equal.
  unfold reconnectCallback, connect.
  assert (Hclosed : ∀ s pr rt,
    current_is_open
      (setState s
         {| Hook.sockets := replicate n (Socket.mk ReadyState.CLOSED 0)
                         ++ [Socket.mk ReadyState.CLOSED 0];
            Hook.timeouts := delete n (<[n := 0%Z]> ∅);
            Hook.nextTimeout := S n; Hook.pings := [];
            Hook.wsRef := Some n; Hook.pingIntervalRef := pr;
            Hook.reconnectTimeoutRef := rt; Hook.shouldReconnectRef := true;
            Hook.missedPongsRef := 0;
            Hook.state := WebSocketState.mk false false None None (Z.of_nat n) None 0 |})
    = false).
  { intros. unfold current_is_open, current_readyState. cbn.
    rewrite list_lookup_middle by (rewrite length_replicate; reflexivity).
    reflexivity. }
  cbn [Hook.sockets Hook.timeouts Hook.nextTimeout Hook.pings Hook.wsRef
       Hook.pingIntervalRef Hook.reconnectTimeoutRef Hook.shouldReconnectRef
       Hook.missedPongsRef Hook.state].
  rewrite Hclosed. cbn.
  rewrite length_app, length_replicate, delete_insert_id by apply lookup_empty.
  unfold retryingHook, set_wsRef, set_sockets, setState.
  cbn [Hook.sockets Hook.timeouts Hook.nextTimeout Hook.pings Hook.wsRef
       Hook.pingIntervalRef Hook.reconnectTimeoutRef Hook.shouldReconnectRef
       Hook.missedPongsRef Hook.state WebSocketState.isConnected
       WebSocketState.isConnecting WebSocketState.error
       WebSocketState.lastMessage WebSocketState.reconnectCount
       WebSocketState.lastHeartbeat WebSocketState.missedPongs].
  rewrite replicate_S_end.
  replace (n + length [Socket.mk ReadyState.CLOSED 0]) with (S n) by (simpl; lia).
  replace (Z.of_nat n + 1)%Z with (Z.of_nat (S n)) by lia.
  reflexivity.
Qed.



(** ** Reconnecting *)

Lemma retryRounds_S n :
  retryRounds (S n) = retryRounds n ++ [SocketClose n; ReconnectTimeout n].
Proof.
  unfold retryRounds. rewrite seq_S, flat_map_app. simpl.
  reflexivity.
Qed.

Lemma retry_rounds_world cfg n :
  WebSocketConfig.autoConnect cfg = true →
  WebSocketConfig.sessionId cfg ≠ ""%string →
  (0 < WebSocketConfig.reconnectAttempts cfg)%Z →
  ∃ st, deliver_all cfg (retryRounds n)
          (with_hook (autoConnectEffect cfg) initialWorld)
        = mkWorld (retryingHook n) Poller.initial st.
Proof.
  intros Hauto Hid Hatt. induction n as [|n [st IH]].
  - exists initialStore. unfold deliver_all, retryRounds, with_hook. simpl.
    unfold autoConnectEffect. rewrite Hauto.
    apply String.eqb_neq in Hid. rewrite Hid. reflexivity.
  - exists (default id (WebSocketConfig.onDisconnect cfg) st).
    rewrite retryRounds_S. unfold deliver_all in *. rewrite foldl_app, IH.
    cbn [foldl]. rewrite (retry_close cfg n _ _ Hatt). apply retry_timeout.
Qed.

(** X11. Reconnection started by the auto-connect effect is not limited by
    [reconnectAttempts]: the close handler compares the limit with the
    reconnect count its closure saw when [connect] was created, which stays
    0, not with the current count.  However many times in a row the
    transport fails to come up (its close event, then the reconnect
    timeout), the hook opens one more transport and counts one more
    reconnect: after [n] rounds there are [n + 1] transports, the last one
    connecting, and [state.reconnectCount] is [n], for every [n]. *)
Theorem reconnect_not_limited cfg (n : nat) :
  WebSocketConfig.autoConnect cfg = true →
  WebSocketConfig.sessionId cfg ≠ ""%string →
  (0 < WebSocketConfig.reconnectAttempts cfg)%Z →
  let w := deliver_all cfg (retryRounds n)
             (with_hook (autoConnectEffect cfg) initialWorld) in
  length (Hook.sockets (hook w)) = S n ∧
  socket_state w n = Some ReadyState.CONNECTING ∧
  Hook.wsRef (hook w) = Some n ∧
  WebSocketState.isConnecting (Hook.state (hook w)) = true ∧
  WebSocketState.reconnectCount (Hook.state (hook w)) = Z.of_nat n.
Proof.
  intros Hauto Hid Hatt.
  destruct (retry_rounds_world cfg n Hauto Hid Hatt) as [st Hw].
  cbn zeta. rewrite Hw. unfold socket_state. cbn [hook retryingHook
    Hook.sockets Hook.wsRef Hook.state WebSocketState.isConnecting
    WebSocketState.reconnectCount].
  repeat split.
  - rewrite length_app, length_replicate. simpl. lia.
  - rewrite list_lookup_middle by (rewrite length_replicate; reflexivity).
    reflexivity.
Qed.

Lemma reconnect_not_limited_witness :
  WebSocketConfig.autoConnect sampleConfig = true ∧
  WebSocketConfig.sessionId sampleConfig ≠ ""%string ∧
  WebSocketConfig.reconnectAttempts sampleConfig = 5%Z ∧
  (let w := deliver_all sampleConfig (retryRounds 7)
              (with_hook (autoConnectEffect sampleConfig) initialWorld) in
   length (Hook.sockets (hook w)) = 8 ∧
   socket_state w 7 = Some ReadyState.CONNECTING ∧
   Hook.wsRef (hook w) = Some 7 ∧
   WebSocketState.isConnecting (Hook.state (hook w)) = true ∧
   WebSocketState.reconnectCount (Hook.state (hook w)) = 7%Z).
Proof.
  assert (Hid : WebSocketConfig.sessionId sampleConfig ≠ ""%string) by discriminate.
  assert (Hatt : (0 < WebSocketConfig.reconnectAttempts sampleConfig)%Z) by reflexivity.
  exact (conj eq_refl (conj Hid (conj eq_refl
           (reconnect_not_limited sampleConfig 7 eq_refl Hid Hatt)))).
Defined.

(** ** Sending, and disconnecting twice *)

(** X12. [sendMessage] hands a frame to the transport only while the
    current transport is open: it fails on a fresh hook, right after
    [connect] and until the open event has been delivered, and after
    [disconnect], whatever the state of the hook was.  A second
    [disconnect] in a row changes nothing. *)
Theorem sendMessage_needs_open_transport :
  sendMessage Hook.initial = None ∧
  (∀ c h, sendMessage h = None → sendMessage (connect c h) = None) ∧
  (∀ cfg c h, sendMessage h = None →
     sendMessage (hook (deliver cfg (SocketOpen (length (Hook.sockets h)))
                          (mkWorld (connect c h) Poller.initial initialStore)))
       = Some (length (Hook.sockets h))) ∧
  (∀ h, sendMessage (disconnect h) = None) ∧
  (∀ h, disconnect (disconnect h) = disconnect h).
Proof.
  assert (Hsend : ∀ h, sendMessage h = None → current_is_open h = false).
  { intros h. unfold sendMessage.
    destruct (Hook.wsRef h) as [i|] eqn:Hr.
    - destruct (current_is_open h); [discriminate|reflexivity].
    - intros _. unfold current_is_open, current_readyState. rewrite Hr.
      reflexivity. }
  split; [reflexivity|]. split; [|split; [|split]].
  - intros c h H. apply Hsend in H.
    unfold sendMessage. rewrite (connect_fresh_not_open c h H).
    destruct (Hook.wsRef (connect c h)); reflexivity.
  - intros cfg c h H. apply Hsend in H.
    destruct (connect_when_not_open c h H) as [Hs Hr].
    cbn [deliver]. unfold socket_state. cbn [hook]. rewrite Hs.
    rewrite list_lookup_middle by reflexivity. cbn [fmap option_fmap option_map
      Socket.readyState].
    unfold sendMessage, current_is_open, current_readyState, onopen, call,
      with_store, with_hook, mark_socket, with_hook, startPing.
    cbn [hook poller store set_pingIntervalRef set_missedPongsRef setState
         set_sockets Hook.wsRef Hook.sockets].
    rewrite Hr, Hs. cbn [mbind option_bind].
    rewrite list_lookup_alter_eq, list_lookup_middle by reflexivity.
    reflexivity.
  - intros h. destruct h as [ss ts nt ps [i|] pr [t|] sr mp st]; reflexivity.
  - intros h. destruct h as [ss ts nt ps [i|] pr [t|] sr mp st]; reflexivity.
Qed.

Lemma sendMessage_needs_open_transport_witness :
  sendMessage Hook.initial = None ∧
  sendMessage (connect 0 Hook.initial) = None ∧
  sendMessage (hook (deliver sampleConfig (SocketOpen 0)
                       (mkWorld (connect 0 Hook.initial) Poller.initial initialStore)))
    = Some 0.
Proof.
  destruct sendMessage_needs_open_transport as (H0 & Hc & Ho & _).
  exact (conj H0 (conj (Hc 0%Z Hook.initial H0)
                       (Ho sampleConfig 0%Z Hook.initial H0))).
Defined.

(** * Properties of the session and recording controls *)

(** ** analyzeSession *)

(** X13. [analyzeSession] on its error paths.  Without a session id it
    only writes ['No active session'] into the error slot: nothing is
    requested and the loading flag is not touched.  With one, it sets the
    loading flag and clears the error before the request.  However the
    request settles, and whatever was written to the store meanwhile, the
    loading flag is false afterwards.  A failed request returns [null] and
    writes the error message (or ['Analysis failed']) and nothing else
    besides the flag: verdict, mirror and session are as they were. *)
Theorem analyzeSession_error_paths :
  (∀ s, analyzeSession_begin "" s
        = (None, set_error (Some "No active session"%string) s)) ∧
  (∀ sid s, sid ≠ ""%string →
     analyzeSession_begin sid s = (Some sid, set_error None (set_isLoading true s))) ∧
  (∀ o s, isLoading (snd (analyzeSession_settle o s)) = false) ∧
  (∀ message httpStatus s,
     analyzeSession_settle (Rejected message httpStatus) s
     = (None,
        set_isLoading false
          (set_error (Some (default "Analysis failed"%string message)) s))).
Proof.
  split; [reflexivity|]. split; [|split].
  - intros sid s Hsid. unfold analyzeSession_begin.
    apply String.eqb_neq in Hsid. rewrite Hsid. reflexivity.
  - intros [r|m st] s; reflexivity.
  - reflexivity.
Qed.

Lemma analyzeSession_error_paths_witness :
  "SESS_1"%string ≠ ""%string ∧
  analyzeSession_begin "SESS_1" busyStore
    = (Some "SESS_1"%string, set_error None (set_isLoading true busyStore)).
Proof.
  assert (H : "SESS_1"%string ≠ ""%string) by discriminate.
  exact (conj H (proj1 (proj2 analyzeSession_error_paths) _ busyStore H)).
Defined.

(** X14. A successful analysis returns the result and leaves the verdict,
    confidence, reasoning and recommendation of the result in the agent
    view, the result in the mirror and the session status at [complete].
    The [setAgentState] call made after [setFinalResult] is redundant: the
    store is the one the other calls give without it. *)
Theorem analyzeSession_success (r : ApiFinalResult.t) (s : SessionStore) :
  let out := analyzeSession_settle (Fulfilled r) s in
  fst out = Some r ∧
  agent (snd out)
    = {| AgentState.finalState :=
           Some (satisfaction_name (ApiFinalResult.final_state r));
         AgentState.confidence := ApiFinalResult.confidence r;
         AgentState.reasoning := ApiFinalResult.reasoning r;
         AgentState.recommendation := ApiFinalResult.recommendation r |} ∧
  finalResult (snd out) = Some (storeResult_of r) ∧
  SessionMeta.status (session (snd out)) = SessionStatus.complete ∧
  SessionMeta.id (session (snd out)) = SessionMeta.id (session s) ∧
  snd out
    = setLoading false
        (setSession completePartial (setFinalResult (Some (storeResult_of r)) s)).
Proof.
  assert (Hrec : ∀ x : string, (if String.eqb x "" then ""%string else x) = x).
  { intros x. destruct (String.eqb_spec x ""); congruence. }
  cbn. unfold str_or. cbn. rewrite Hrec. repeat split.
Qed.

(** ** Recording controls *)

(** X15. The recording controls on their error paths.  The loading flag is
    false once a request made by [startRecording], [stopRecording] or
    [getResult] has settled, whether it was fulfilled or rejected, and also
    when [stopRecording] returns early for lack of a session id (status
    [idle], result [null]).  [startRecording] throws before its request
    exactly when neither the override nor the hook has a session id; on
    this path it touches no state, so the loading flag is left as it was,
    true if it was true.  [stopRecording] throws exactly when the request
    is rejected with a status other than 400; a 400 gives [null] and status
    [idle].  [pollStatus] never throws: a failure gives ['error'] and
    leaves the hook's status and flag alone. *)
Theorem recording_controls_error_paths :
  (∀ R (o : Settled R) c,
     AudioControls.isLoading (snd (startRecording_settle o c)) = false ∧
     AudioControls.isLoading (snd (stopRecording_settle o c)) = false) ∧
  (∀ o c, AudioControls.isLoading (snd (getResult_settle o c)) = false) ∧
  (∀ override sessionId c,
     (fst (startRecording_begin override sessionId c) = Throws
      ↔ str_or override sessionId = ""%string) ∧
     (fst (startRecording_begin override sessionId c) = Throws →
      snd (startRecording_begin override sessionId c) = c)) ∧
  (∀ R (o : Settled R) c,
     fst (stopRecording_settle o c) = Throws
     ↔ ∃ message httpStatus,
         o = Rejected message httpStatus ∧ httpStatus ≠ Some 400%Z) ∧
  (∀ R message c,
     stopRecording_settle (Rejected (A:=R) message (Some 400%Z)) c
     = (Returns None, AudioControls.mk AudioStatus.idle false)) ∧
  (∀ o c, fst (pollStatus_settle o c) ≠ Throws) ∧
  (∀ message httpStatus c,
     pollStatus_settle (Rejected message httpStatus) c
     = (Returns AudioStatus.error, c)) ∧
  (∀ sessionId c,
     (fst (stopRecording_begin sessionId c) = inl () ↔ sessionId = ""%string) ∧
     (sessionId = ""%string →
      stopRecording_begin sessionId c
      = (inl (), AudioControls.mk AudioStatus.idle false))) ∧
  (∀ override sessionId st flag,
     str_or override sessionId = ""%string →
     AudioControls.isLoading
       (snd (startRecording_begin override sessionId (AudioControls.mk st flag)))
     = flag).
Proof.
  split; [intros R [r|m [[|[]|]|]] c; split; try reflexivity;
          simpl; repeat (match goal with |- context [match ?p with _ => _ end] =>
                           destruct p end); reflexivity|].
  split; [intros [st|m hs] c; reflexivity|].
  split.
  { intros override sessionId c. unfold startRecording_begin.
    destruct (String.eqb_spec (str_or override sessionId) "") as [He|Hne];
      simpl.
    - split; [split; intros _; [exact He|reflexivity]|intros _; reflexivity].
    - split; [split; intros H; [discriminate H|contradiction]|intros H; discriminate H]. }
  split.
  { intros R o c. split.
    - destruct o as [r|m hs]; [discriminate|]. intros H.
      exists m, hs. split; [reflexivity|]. intros ->. discriminate H.
    - intros (m & hs & -> & Hne). simpl.
      destruct hs as [z|]; [|reflexivity].
      destruct (decide (z = 400%Z)) as [->|Hz]; [done|].
      destruct z as [|p|p]; try reflexivity.
      repeat (destruct p as [p|p|]; try reflexivity); done. }
  split; [reflexivity|].
  split; [intros [st|m hs] c; discriminate|].
  split; [reflexivity|].
  split.
  { intros sessionId c. unfold stopRecording_begin.
    destruct (String.eqb_spec sessionId "") as [He|Hne]; simpl.
    - split; [split; intros _; [exact He|reflexivity]|intros _; reflexivity].
    - split; [split; intros H; [discriminate H|contradiction]|intros H; contradiction]. }
  intros override sessionId st flag He. unfold startRecording_begin.
  rewrite He. reflexivity.
Qed.

Lemma recording_controls_error_paths_witness :
  str_or None "" = ""%string ∧
  fst (startRecording_begin None "" AudioControls.initial) = Throws ∧
  snd (startRecording_begin None "" AudioControls.initial) = AudioControls.initial ∧
  AudioControls.isLoading
    (snd (startRecording_begin None "" (AudioControls.mk AudioStatus.recording true)))
  = true ∧
  stopRecording_begin "" (AudioControls.mk AudioStatus.recording true)
  = (inl (), AudioControls.mk AudioStatus.idle false).
Proof.
  destruct recording_controls_error_paths
    as (_ & _ & Hstart & _ & _ & _ & _ & Hstop & Hflag).
  destruct (Hstart None ""%string AudioControls.initial) as [Hiff Hsame].
  assert (He : str_or None "" = ""%string) by reflexivity.
  exact (conj He (conj (proj2 Hiff He) (conj (Hsame (proj2 Hiff He))
           (conj (Hflag None ""%string AudioStatus.recording true He)
                 (proj2 (Hstop ""%string (AudioControls.mk AudioStatus.recording true))
                        eq_refl))))).
Defined.

(** * Properties across the hooks and the page *)

(** X16. The poller and the push channel do not touch each other: an
    event of the poller (tick, settled request) leaves the hook as it is,
    an event of the push channel leaves the poller as it is.  A poll tick
    and a failed request leave the store untouched too; the failure only
    takes the request off the count of those in flight, and the interval
    stays installed. *)
Theorem coordinators_independent cfg e w :
  (poll_event e = true → hook (deliver cfg e w) = hook w) ∧
  (push_event e = true → poller (deliver cfg e w) = poller w) ∧
  (e = PollInterval ∨ e = FetchRejected →
     store (deliver cfg e w) = store w ∧
     Poller.intervalRef (poller (deliver cfg e w)) = Poller.intervalRef (poller w)).
Proof.
  split; [|split].
  - destruct e as [i|i now frame|i|i| |t| |m|]; try discriminate; intros _;
      cbn [deliver].
    + destruct (Poller.intervalRef (poller w)); reflexivity.
    + destruct (Poller.inFlight (poller w)); reflexivity.
    + destruct (Poller.inFlight (poller w)); reflexivity.
  - destruct e as [i|i now frame|i|i| |t| |m|]; try discriminate; intros _;
      cbn [deliver].
    + destruct (socket_state w i) as [[]|]; reflexivity.
    + destruct (socket_state w i) as [[]|]; try reflexivity.
      apply (handleMessage_hook cfg now frame w).
    + destruct (socket_state w i) as [[]|]; reflexivity.
    + destruct (Hook.sockets (hook w) !! i) as [k|]; [|reflexivity].
      destruct (Socket.readyState k); try reflexivity; unfold onclose;
        match goal with |- context [if ?b then _ else _] => destruct b end;
        reflexivity.
    + destruct (Hook.pingIntervalRef (hook w)); reflexivity.
    + destruct (Hook.timeouts (hook w) !! t); reflexivity.
  - intros [-> | ->]; cbn [deliver].
    + destruct (Poller.intervalRef (poller w)) eqn:E; simpl; rewrite ?E; done.
    + destruct (Poller.inFlight (poller w)); done.
Qed.

Lemma coordinators_independent_witness :
  poll_event (FetchResolved sampleMetrics) = true ∧
  hook (deliver sampleConfig (FetchResolved sampleMetrics) connectedWorld)
    = hook connectedWorld ∧
  push_event PingInterval = true ∧
  poller (deliver sampleConfig PingInterval connectedWorld) = poller connectedWorld ∧
  store (deliver sampleConfig FetchRejected pollingWorld) = store pollingWorld.
Proof.
  destruct (coordinators_independent sampleConfig (FetchResolved sampleMetrics)
              connectedWorld) as (Hpoll & _ & _).
  destruct (coordinators_independent sampleConfig PingInterval connectedWorld)
    as (_ & Hpush & _).
  destruct (coordinators_independent sampleConfig FetchRejected pollingWorld)
    as (_ & _ & Hfail).
  exact (conj eq_refl (conj (Hpoll eq_refl) (conj eq_refl (conj (Hpush eq_refl)
           (proj1 (Hfail (or_intror eq_refl))))))).
Defined.

(** X17. Frames under the dashboard's callbacks.  An [audio_metrics] frame
    is applied twice, by the hook and by the page's [onMessage], and the
    store is the one a single [setAudioMetrics] gives.  For a [video_stats]
    frame the page's partial is merged over what the hook wrote: the face
    count is the frame's [face_count] (0 when missing), the counts are the
    frame's over the four zeroed labels, and the mirror holds the hook's
    object. *)
Theorem dashboard_frames sid t0 now w :
  let cfg := dashboardConfig sid t0 in
  (∀ d, store (handleMessage cfg now (Some (WSEvent.audio_metrics (Some d))) w)
        = setAudioMetrics (Some (liveMetrics_of d)) (store w)) ∧
  (∀ d, let s' := store (handleMessage cfg now
                           (Some (WSEvent.video_stats (Some d))) w) in
        video s'
          = {| VideoState.faceCount := num_or (VideoStatsData.face_count d) 0;
               VideoState.dominantEmotion :=
                 str_or (VideoStatsData.dominant_emotion d) "neutral";
               VideoState.confidence := num_or (VideoStatsData.confidence d) 0;
               VideoState.totalFrames := num_or (VideoStatsData.total_frames d) 0;
               VideoState.duration := num_or (VideoStatsData.duration d) 0;
               VideoState.emotionCounts :=
                 obj_or (VideoStatsData.emotion_counts d) ∅ ∪ defaultCounts;
               VideoState.isRecording := true |} ∧
        videoStats s' = Some (videoStats_of d)).
Proof. cbn zeta. split; intros d; [reflexivity|split; reflexivity]. Qed.

(** X18. The session id drives the connection.  [startSession] stores the
    id it returns, which is never empty, with status [recording], so the
    page's hook configuration has [autoConnect] on and, on a hook with no
    open transport, the auto-connect effect opens one.  [endSession] keeps
    the id.  After [resetSession] the id is empty and the auto-connect
    effect does nothing. *)
Theorem session_id_drives_autoconnect :
  (∀ now started s t0 h,
     let id := fst (startSession now started s) in
     let s' := snd (startSession now started s) in
     SessionMeta.id (session s') = id ∧
     id ≠ ""%string ∧
     SessionMeta.status (session s') = SessionStatus.recording ∧
     WebSocketConfig.autoConnect (dashboardConfig id t0) = true ∧
     (current_is_open h = false →
      length (Hook.sockets (autoConnectEffect (dashboardConfig id t0) h))
        = S (length (Hook.sockets h)))) ∧
  (∀ s, SessionMeta.id (session (endSession s)) = SessionMeta.id (session s) ∧
        SessionMeta.status (session (endSession s)) = SessionStatus.processing) ∧
  (∀ s t0 h,
     SessionMeta.id (session (resetSession s)) = ""%string ∧
     autoConnectEffect
       (dashboardConfig (SessionMeta.id (session (resetSession s))) t0) h = h).
Proof.
  split; [|split].
  - intros now started s t0 h. cbn zeta.
    assert (Hne : generateSessionId now ≠ ""%string) by discriminate.
    assert (Heff : autoConnectEffect (dashboardConfig (generateSessionId now) t0) h
                   = connect (WebSocketState.reconnectCount (Hook.state h))
                       (set_shouldReconnectRef true h)) by reflexivity.
    repeat split; try assumption.
    intros Hopen.
    change (fst (startSession now started s)) with (generateSessionId now).
    rewrite Heff.
    assert (Hopen' : current_is_open (set_shouldReconnectRef true h) = false)
      by (rewrite <- Hopen; apply current_is_open_ext; reflexivity).
    destruct (connect_when_not_open
                (WebSocketState.reconnectCount (Hook.state h))
                (set_shouldReconnectRef true h) Hopen') as [Hs _].
    rewrite Hs, length_app. simpl. lia.
  - intros s. split; reflexivity.
  - intros s t0 h. split; reflexivity.
Qed.

Lemma session_id_drives_autoconnect_witness :
  current_is_open Hook.initial = false ∧
  length (Hook.sockets
            (autoConnectEffect
               (dashboardConfig (fst (startSession 1700000000000 0 initialStore)) 1000)
               Hook.initial)) = 1.
Proof.
  destruct session_id_drives_autoconnect as (Hstart & _).
  destruct (Hstart 1700000000000%Z 0%Q initialStore 1000%Z Hook.initial)
    as (_ & _ & _ & _ & Hopens).
  exact (conj eq_refl (Hopens eq_refl)).
Defined.

(** ** More on disconnect, full updates and polling *)

(** X19. [disconnect] closes the current transport and no other.  The
    current transport is closing or closed afterwards; every other
    transport keeps its state, so one that was open stays open, and a frame
    that arrives on it after [disconnect] is still handled. *)
Theorem disconnect_closes_current_only cfg w :
  let w' := with_hook disconnect w in
  length (Hook.sockets (hook w')) = length (Hook.sockets (hook w)) ∧
  (∀ j, Hook.wsRef (hook w) = Some j →
        socket_state w' j ≠ Some ReadyState.OPEN ∧
        socket_state w' j ≠ Some ReadyState.CONNECTING) ∧
  (∀ i, Hook.wsRef (hook w) ≠ Some i → socket_state w' i = socket_state w i) ∧
  (∀ i now frame,
     Hook.wsRef (hook w) ≠ Some i →
     socket_state w i = Some ReadyState.OPEN →
     deliver cfg (SocketMessage i now frame) w' = handleMessage cfg now frame w').
Proof.
  cbn zeta.
  assert (Hother : ∀ i, Hook.wsRef (hook w) ≠ Some i →
            socket_state (with_hook disconnect w) i = socket_state w i).
  { intros i Hi. unfold socket_state.
    change (hook (with_hook disconnect w)) with (disconnect (hook w)).
    rewrite disconnect_sockets.
    destruct (Hook.wsRef (hook w)) as [j|]; [|reflexivity].
    rewrite list_lookup_alter_ne by congruence. reflexivity. }
  split; [|split; [|split]].
  - change (hook (with_hook disconnect w)) with (disconnect (hook w)).
    rewrite disconnect_sockets.
    destruct (Hook.wsRef (hook w)); [apply length_alter|reflexivity].
  - intros j Hj. unfold socket_state.
    change (hook (with_hook disconnect w)) with (disconnect (hook w)).
    rewrite disconnect_sockets, Hj, list_lookup_alter_eq.
    destruct (Hook.sockets (hook w) !! j) as [k|]; [|split; discriminate].
    simpl. unfold Socket.close.
    destruct (Socket.readyState k) eqn:E; simpl; rewrite ?E; split; discriminate.
  - exact Hother.
  - intros i now frame Hi Hopen. cbn [deliver].
    rewrite (Hother i Hi), Hopen. reflexivity.
Qed.

Lemma disconnect_closes_current_only_witness :
  Hook.wsRef (hook orphanWorld) = Some 1 ∧
  socket_state (with_hook disconnect orphanWorld) 1 = Some ReadyState.CLOSING ∧
  socket_state (with_hook disconnect orphanWorld) 0 = Some ReadyState.CONNECTING ∧
  (let w := deliver sampleConfig (SocketOpen 0) orphanWorld in
   Hook.wsRef (hook w) ≠ Some 0 ∧
   socket_state w 0 = Some ReadyState.OPEN ∧
   deliver sampleConfig
     (SocketMessage 0 0 (Some (WSEvent.video_stats (Some (framesOnlyFrame 41)))))
     (with_hook disconnect w)
   = handleMessage sampleConfig 0
       (Some (WSEvent.video_stats (Some (framesOnlyFrame 41))))
       (with_hook disconnect w)).
Proof.
  assert (H0 : Hook.wsRef (hook orphanWorld) ≠ Some 0) by discriminate.
  assert (Hw : Hook.wsRef (hook (deliver sampleConfig (SocketOpen 0) orphanWorld))
               ≠ Some 0) by discriminate.
  destruct (disconnect_closes_current_only sampleConfig orphanWorld)
    as (_ & _ & Hother & _).
  destruct (disconnect_closes_current_only sampleConfig
              (deliver sampleConfig (SocketOpen 0) orphanWorld))
    as (_ & _ & _ & Hmsg).
  exact (conj eq_refl (conj eq_refl (conj (Hother 0 H0)
           (conj Hw (conj eq_refl (Hmsg 0 0%Z _ Hw eq_refl)))))).
Defined.

(** X20. Full updates absorb what came before.  [setVideoStats] with an
    object and [setFinalResult] with a result replace the whole video and
    agent view: earlier writes to the view and its mirror, through either
    setter, leave no trace.  [setAudioMetrics] with metrics absorbs an
    earlier [setAudioMetrics] in the same way, but not an earlier
    [setAudioState]: the frame counters and the error of the audio view
    are kept. *)
Theorem full_updates_absorb :
  (∀ v p x s, setVideoStats (Some v) (setVideoState p (setVideoStats x s))
              = setVideoStats (Some v) s) ∧
  (∀ r p x s, setFinalResult (Some r) (setAgentState p (setFinalResult x s))
              = setFinalResult (Some r) s) ∧
  (∀ m x s, setAudioMetrics (Some m) (setAudioMetrics x s)
            = setAudioMetrics (Some m) s) ∧
  (∀ m p s,
     let a := audio (setAudioMetrics (Some m) (setAudioState p s)) in
     AudioState.totalFrames a
       = default (AudioState.totalFrames (audio s)) (AudioState.Partial.totalFrames p) ∧
     AudioState.speechFrames a
       = default (AudioState.speechFrames (audio s)) (AudioState.Partial.speechFrames p) ∧
     AudioState.error a
       = default (AudioState.error (audio s)) (AudioState.Partial.error p)).
Proof.
  repeat split.
  - intros v p [x|] s; reflexivity.
  - intros r p [x|] s; reflexivity.
  - intros m [x|] s; reflexivity.
Qed.

Lemma polling_ticks cfg (n : nat) w :
  Poller.intervalRef (poller w) = true →
  poller (deliver_all cfg (replicate n PollInterval) w)
  = Poller.mk true (Poller.inFlight (poller w) + n) ∧
  store (deliver_all cfg (replicate n PollInterval) w) = store w.
Proof.
  revert w. induction n as [|n IH]; intros w Hi.
  - simpl. rewrite Nat.add_0_r. destruct (poller w); simpl in *. subst. done.
  - unfold deliver_all in *. cbn [replicate foldl deliver]. rewrite Hi.
    destruct (IH (with_poller fetchMetrics w)) as [Hp Hs]; [exact Hi|].
    rewrite Hp, Hs. simpl. split; [f_equal; lia|reflexivity].
Qed.

(** X21. The poller does not wait for answers.  Switched on with a session
    id it sends one request at once and installs its interval; every tick
    sends one more whether or not earlier requests have settled, so with
    no answer [n] ticks leave [n + 1] more requests in flight and the store
    untouched.  Switched on without a session id it installs nothing and
    sends nothing. *)
Theorem poller_sends_without_waiting cfg :
  (∀ n sid w, sid ≠ ""%string →
     let w' := deliver_all cfg (replicate n PollInterval)
                 (with_poller (pollingEffect true sid) w) in
     poller w' = Poller.mk true (Poller.inFlight (poller w) + 1 + n) ∧
     store w' = store w) ∧
  (∀ enabled sid p,
     pollingEffect enabled "" p = Poller.mk false (Poller.inFlight p) ∧
     pollingEffect false sid p = Poller.mk false (Poller.inFlight p)).
Proof.
  split.
  - intros n sid w Hsid. cbn zeta.
    assert (He : with_poller (pollingEffect true sid) w
                 = mkWorld (hook w) (Poller.mk true (S (Poller.inFlight (poller w))))
                     (store w)).
    { unfold with_poller, pollingEffect. apply String.eqb_neq in Hsid.
      rewrite Hsid. reflexivity. }
    rewrite He.
    destruct (polling_ticks cfg n
                (mkWorld (hook w) (Poller.mk true (S (Poller.inFlight (poller w))))
                   (store w)) eq_refl) as [Hp Hs].
    rewrite Hp, Hs. simpl. split; [f_equal; lia|reflexivity].
  - intros [] sid p; split; reflexivity.
Qed.

Lemma poller_sends_without_waiting_witness :
  "SESS_1"%string ≠ ""%string ∧
  poller (deliver_all sampleConfig (replicate 20 PollInterval)
            (with_poller (pollingEffect true "SESS_1") initialWorld))
    = Poller.mk true 21.
Proof.
  assert (H : "SESS_1"%string ≠ ""%string) by discriminate.
  exact (conj H
           (proj1 (proj1 (poller_sends_without_waiting sampleConfig)
                     20 "SESS_1"%string initialWorld H))).
Defined.

(** * The heartbeat and cancellation *)

(** ** What the heartbeat detects, and when reconnection begins *)

Lemma quiet_keeps_transports cfg e w :
  quiet e = true →
  Hook.timeouts (hook (deliver cfg e w)) = Hook.timeouts (hook w) ∧
  Hook.reconnectTimeoutRef (hook (deliver cfg e w))
    = Hook.reconnectTimeoutRef (hook w) ∧
  length (Hook.sockets (hook (deliver cfg e w))) = length (Hook.sockets (hook w)).
Proof.
  intros He. destruct e as [j|j now frame|j|j| |t| |m|]; try discriminate He;
    cbn [deliver].
  - destruct (socket_state w j) as [[]|]; try done.
    destruct (handleMessage_hook cfg now frame w) as ((Hs & Ht & _ & _ & _ & _ & Hr & _) & _).
    rewrite Hs, Ht, Hr. done.
  - destruct (Hook.pingIntervalRef (hook w)); [|done].
    unfold with_hook, pingCallback. cbn [hook].
    destruct (Hook.wsRef (hook w)) as [i|]; [|done].
    destruct (current_is_open (hook w)); [|done].
    cbn [set_missedPongsRef Hook.missedPongsRef].
    destruct (MAX_MISSED_PONGS <? Hook.missedPongsRef (hook w) + 1)%Z; cbn.
    + rewrite length_alter. done.
    + done.
  - destruct (Poller.intervalRef (poller w)); done.
  - destruct (Poller.inFlight (poller w)); done.
  - destruct (Poller.inFlight (poller w)); done.
Qed.

Lemma quiet_run_keeps_transports cfg es : ∀ w,
  forallb quiet es = true →
  Hook.timeouts (hook (deliver_all cfg es w)) = Hook.timeouts (hook w) ∧
  Hook.reconnectTimeoutRef (hook (deliver_all cfg es w))
    = Hook.reconnectTimeoutRef (hook w) ∧
  length (Hook.sockets (hook (deliver_all cfg es w))) = length (Hook.sockets (hook w)).
Proof.
  induction es as [|e es IH]; intros w Hq; [done|].
  simpl in Hq. apply andb_prop in Hq as [He Hq].
  unfold deliver_all. simpl foldl. fold (deliver_all cfg es (deliver cfg e w)).
  destruct (IH (deliver cfg e w) Hq) as (Ht & Hr & Hl).
  destruct (quiet_keeps_transports cfg e w He) as (Ht' & Hr' & Hl').
  rewrite Ht, Hr, Hl, Ht', Hr', Hl'. done.
Qed.

Lemma closing_tick cfg i w :
  probing i MAX_MISSED_PONGS w →
  Hook.wsRef (hook (deliver cfg PingInterval w)) = Some i ∧
  socket_state (deliver cfg PingInterval w) i = Some ReadyState.CLOSING.
Proof.
  intros Hpr. split; [|apply probing_last_tick, Hpr].
  pose proof (current_is_open_probing _ _ _ Hpr) as Hopen.
  destruct Hpr as (Hr & Ho & Hp & Hm). cbn [deliver]. rewrite Hp.
  unfold pingCallback, with_hook. cbn [hook]. rewrite Hr, Hopen.
  cbn [set_missedPongsRef Hook.missedPongsRef]. rewrite Hm. exact Hr.
Qed.

Lemma tick_on_closing cfg i w :
  Hook.wsRef (hook w) = Some i →
  socket_state w i = Some ReadyState.CLOSING →
  deliver cfg PingInterval w = w.
Proof.
  intros Hr Hs. cbn [deliver].
  destruct (Hook.pingIntervalRef (hook w)); [|reflexivity].
  unfold with_hook, pingCallback. rewrite Hr.
  unfold current_is_open, current_readyState. rewrite Hr. cbn [mbind option_bind].
  unfold socket_state in Hs. rewrite Hs. destruct w; reflexivity.
Qed.

(** C4, as stated, fails on two counts.  A [heartbeat] frame does not reset
    the count of missed responses, only a [pong] does: after two probes the
    count is 2 and a heartbeat leaves it at 2 while recording the time, and
    a server that sends a heartbeat after every probe and never a pong is
    cut off by the fourth probe.  And the probe that finds more than three
    misses only calls [close()]: with it no reconnection begins.  The
    transport is closing, the hook still reports connected, no reconnect
    timeout is pending and no transport was opened, and five more probe
    intervals change nothing. *)
Lemma heartbeat_frame_keeps_missed_count :
  let hb := SocketMessage 0 7000 (Some WSEvent.heartbeat) in
  let w2 := deliver_all sampleConfig [PingInterval; PingInterval] connectedWorld in
  let w3 := deliver sampleConfig hb w2 in
  (Hook.missedPongsRef (hook w2) = 2%Z ∧
   Hook.missedPongsRef (hook w3) = 2%Z ∧
   WebSocketState.lastHeartbeat (Hook.state (hook w3)) = Some 7000%Z ∧
   socket_state
     (deliver_all sampleConfig
        [PingInterval; hb; PingInterval; hb; PingInterval; hb; PingInterval]
        connectedWorld) 0
     = Some ReadyState.CLOSING) ∧
  (socket_state deadWorld 0 = Some ReadyState.CLOSING ∧
   WebSocketState.isConnected (Hook.state (hook deadWorld)) = true ∧
   Hook.timeouts (hook deadWorld) = ∅ ∧
   Hook.reconnectTimeoutRef (hook deadWorld) = None ∧
   length (Hook.sockets (hook deadWorld)) = 1 ∧
   deliver_all sampleConfig (replicate 5 PingInterval) deadWorld = deadWorld).
Proof. vm_compute. repeat split. Qed.

(** C4, amended.  While the current transport is open every probe tick
    counts one more missed response; a [pong] frame puts the count back to
    0 and records the time, a [heartbeat] frame records the time and leaves
    the count as it is.  From a count of 0, once three probe ticks have
    passed with no pong (other frames and poll events may arrive, the
    transport reports nothing) the connection is still open with a count of
    3, and the next probe tick calls [close()] on the transport on the
    client's own initiative.  That tick begins no reconnection: no timeout
    is installed, no transport is opened, and a further probe tick does
    nothing.  Reconnection begins when the close event of that transport
    arrives: the heartbeat is stopped and, reconnection being enabled with
    attempts left, a reconnect timeout is installed. *)
Theorem heartbeat_failure_detection (cfg : WebSocketConfig.t) :
  (∀ i n w, probing i n w →
     Hook.missedPongsRef (hook (deliver cfg PingInterval w)) = (n + 1)%Z) ∧
  (∀ now w,
     let wp := handleMessage cfg now (Some WSEvent.pong) w in
     let wh := handleMessage cfg now (Some WSEvent.heartbeat) w in
     (Hook.missedPongsRef (hook wp) = 0%Z ∧
      WebSocketState.missedPongs (Hook.state (hook wp)) = 0%Z ∧
      WebSocketState.lastHeartbeat (Hook.state (hook wp)) = Some now) ∧
     (Hook.missedPongsRef (hook wh) = Hook.missedPongsRef (hook w) ∧
      WebSocketState.missedPongs (Hook.state (hook wh))
        = WebSocketState.missedPongs (Hook.state (hook w)) ∧
      WebSocketState.lastHeartbeat (Hook.state (hook wh)) = Some now)) ∧
  (∀ i es w,
     probing i 0 w → forallb quiet es = true → ticks es = 3 →
     let w3 := deliver_all cfg es w in
     let w4 := deliver cfg PingInterval w3 in
     probing i 3 w3 ∧
     socket_state w4 i = Some ReadyState.CLOSING ∧
     Hook.timeouts (hook w4) = Hook.timeouts (hook w) ∧
     Hook.reconnectTimeoutRef (hook w4) = Hook.reconnectTimeoutRef (hook w) ∧
     length (Hook.sockets (hook w4)) = length (Hook.sockets (hook w)) ∧
     deliver cfg PingInterval w4 = w4) ∧
  (∀ i k w,
     Hook.sockets (hook w) !! i = Some k →
     Socket.readyState k = ReadyState.CLOSING →
     Hook.shouldReconnectRef (hook w) = true →
     (Socket.seenReconnectCount k < WebSocketConfig.reconnectAttempts cfg)%Z →
     let w' := deliver cfg (SocketClose i) w in
     socket_state w' i = Some ReadyState.CLOSED ∧
     Hook.pingIntervalRef (hook w') = false ∧
     Hook.reconnectTimeoutRef (hook w') = Some (Hook.nextTimeout (hook w)) ∧
     Hook.timeouts (hook w') !! Hook.nextTimeout (hook w)
       = Some (Socket.seenReconnectCount k)).
Proof.
  split; [|split; [|split]].
  - intros i n w Hpr. pose proof (current_is_open_probing _ _ _ Hpr) as Hopen.
    destruct Hpr as (Hr & Ho & Hp & Hm). simpl. rewrite Hp.
    unfold pingCallback, with_hook. simpl. rewrite Hr, Hopen. simpl. rewrite Hm.
    destruct (MAX_MISSED_PONGS <? n + 1)%Z; reflexivity.
  - intros now w. unfold handleMessage. simpl.
    destruct (WebSocketConfig.onMessage cfg); repeat split.
  - intros i es w Hpr Hq Ht. cbn zeta.
    assert (H3 : probing i 3 (deliver_all cfg es w)).
    { pose proof (probing_quiet_run cfg i es 0%Z w Hq) as H.
      rewrite Ht in H. apply H; [unfold MAX_MISSED_PONGS; lia | exact Hpr]. }
    destruct (closing_tick cfg i _ H3) as [Hr4 Hs4].
    destruct (quiet_run_keeps_transports cfg es w Hq) as (Ht3 & Hrt3 & Hl3).
    destruct (quiet_keeps_transports cfg PingInterval (deliver_all cfg es w) eq_refl)
      as (Ht4 & Hrt4 & Hl4).
    split; [exact H3|]. split; [exact Hs4|].
    split; [rewrite Ht4; exact Ht3|].
    split; [rewrite Hrt4; exact Hrt3|].
    split; [rewrite Hl4; exact Hl3|].
    apply (tick_on_closing cfg i _ Hr4 Hs4).
  - intros i k w Hk Hc Hs Hlt. simpl. rewrite Hk, Hc.
    unfold onclose, call, with_store, with_hook, mark_socket. simpl.
    rewrite Hs. apply Z.ltb_lt in Hlt. rewrite Hlt. simpl.
    unfold socket_state, with_hook. simpl.
    rewrite list_lookup_alter_eq, Hk. simpl.
    repeat split. apply lookup_insert_eq.
Qed.

Lemma heartbeat_failure_detection_witness :
  (probing 0 0 connectedWorld ∧
   forallb quiet silentRun = true ∧
   ticks silentRun = 3 ∧
   probing 0 3 (deliver_all sampleConfig silentRun connectedWorld) ∧
   socket_state deadWorld 0 = Some ReadyState.CLOSING ∧
   Hook.timeouts (hook deadWorld) = Hook.timeouts (hook connectedWorld) ∧
   Hook.reconnectTimeoutRef (hook deadWorld)
     = Hook.reconnectTimeoutRef (hook connectedWorld) ∧
   length (Hook.sockets (hook deadWorld))
     = length (Hook.sockets (hook connectedWorld)) ∧
   deliver sampleConfig PingInterval deadWorld = deadWorld) ∧
  (Hook.sockets (hook deadWorld) !! 0
     = Some (Socket.mk ReadyState.CLOSING 0) ∧
   Hook.shouldReconnectRef (hook deadWorld) = true ∧
   (0 < WebSocketConfig.reconnectAttempts sampleConfig)%Z ∧
   Hook.timeouts (hook (deliver sampleConfig (SocketClose 0) deadWorld)) !! 0
     = Some 0%Z) ∧
  Hook.missedPongsRef (hook (deliver sampleConfig PingInterval connectedWorld)) = 1%Z.
Proof.
  assert (Hp : probing 0 0 connectedWorld) by (vm_compute; repeat split).
  assert (Hq : forallb quiet silentRun = true) by reflexivity.
  assert (Ht : ticks silentRun = 3) by reflexivity.
  assert (Hk : Hook.sockets (hook deadWorld) !! 0
               = Some (Socket.mk ReadyState.CLOSING 0)) by reflexivity.
  assert (Hs : Hook.shouldReconnectRef (hook deadWorld) = true) by reflexivity.
  assert (Hlt : (0 < WebSocketConfig.reconnectAttempts sampleConfig)%Z) by reflexivity.
  destruct (heartbeat_failure_detection sampleConfig) as (Ha & _ & Hc & Hd).
  split; [|split].
  - exact (conj Hp (conj Hq (conj Ht (Hc 0 silentRun connectedWorld Hp Hq Ht)))).
  - pose proof (Hd 0 (Socket.mk ReadyState.CLOSING 0) deadWorld Hk eq_refl Hs Hlt)
      as (_ & _ & _ & Htimeout).
    exact (conj Hk (conj Hs (conj Hlt Htimeout))).
  - exact (Ha 0 0%Z connectedWorld Hp).
Defined.

(** ** What disconnect stops and what it lets through *)

Lemma disconnect_pings h : Hook.pings (disconnect h) = Hook.pings h.
Proof. destruct h as [ss ts nt ps [i|] pr [t|] sr mp st]; reflexivity. Qed.

Lemma disconnect_length h :
  length (Hook.sockets (disconnect h)) = length (Hook.sockets h).
Proof.
  rewrite disconnect_sockets. destruct (Hook.wsRef h); [apply length_alter|done].
Qed.

Lemma disconnect_quiescent h : holds_every_timeout h → quiescent (disconnect h).
Proof.
  intros Hall. destruct (disconnect_refs h) as (_ & _ & Hs & Hw & _).
  split; [exact Hw|]. split; [exact Hs|].
  rewrite disconnect_timeouts. apply map_eq. intros t. rewrite lookup_empty.
  destruct (Hook.reconnectTimeoutRef h) as [t'|] eqn:Hr.
  - destruct (decide (t' = t)) as [->|Hne]; [apply lookup_delete_eq|].
    rewrite lookup_delete_ne by exact Hne.
    destruct (Hook.timeouts h !! t) as [c|] eqn:Ht; [|reflexivity].
    pose proof (Hall t (ex_intro _ c Ht)) as H. rewrite Hr in H.
    injection H as H. contradiction.
  - destruct (Hook.timeouts h !! t) as [c|] eqn:Ht; [|reflexivity].
    pose proof (Hall t (ex_intro _ c Ht)) as H. rewrite Hr in H. discriminate H.
Qed.

Lemma deliver_quiescent cfg e w :
  quiescent (hook w) →
  quiescent (hook (deliver cfg e w)) ∧
  Hook.pings (hook (deliver cfg e w)) = Hook.pings (hook w) ∧
  length (Hook.sockets (hook (deliver cfg e w))) = length (Hook.sockets (hook w)).
Proof.
  intros (Hw & Hs & Ht).
  destruct e as [j|j now frame|j|j| |t| |m|]; cbn [deliver].
  - destruct (socket_state w j) as [[]|]; try done.
    unfold quiescent. cbn. rewrite length_alter. done.
  - destruct (socket_state w j) as [[]|]; try done.
    destruct (handleMessage_hook cfg now frame w)
      as ((Hs' & Ht' & _ & Hp' & Hw' & _ & _ & Hsr') & _).
    unfold quiescent. rewrite Hs', Ht', Hp', Hw', Hsr'. done.
  - destruct (socket_state w j) as [[]|]; done.
  - destruct (Hook.sockets (hook w) !! j) as [k|]; [|done].
    destruct (Socket.readyState k); try done;
      unfold quiescent, onclose; cbn; rewrite Hs; cbn; rewrite length_alter; done.
  - destruct (Hook.pingIntervalRef (hook w)); [|done].
    unfold with_hook, pingCallback. cbn [hook]. rewrite Hw. done.
  - rewrite Ht, lookup_empty. done.
  - destruct (Poller.intervalRef (poller w)); done.
  - destruct (Poller.inFlight (poller w)); done.
  - destruct (Poller.inFlight (poller w)); done.
Qed.

Lemma deliver_all_quiescent cfg es : ∀ w,
  quiescent (hook w) →
  quiescent (hook (deliver_all cfg es w)) ∧
  Hook.pings (hook (deliver_all cfg es w)) = Hook.pings (hook w) ∧
  length (Hook.sockets (hook (deliver_all cfg es w))) = length (Hook.sockets (hook w)).
Proof.
  induction es as [|e es IH]; intros w Hq; [done|].
  unfold deliver_all. simpl foldl. fold (deliver_all cfg es (deliver cfg e w)).
  destruct (deliver_quiescent cfg e w Hq) as (Hq' & Hp' & Hl').
  destruct (IH (deliver cfg e w) Hq') as (Hq'' & Hp'' & Hl'').
  rewrite Hp'', Hl'', Hp', Hl'. done.
Qed.

Lemma quiescent_sendMessage h : quiescent h → sendMessage h = None.
Proof. intros (Hw & _). unfold sendMessage. rewrite Hw. reflexivity. Qed.

Lemma deliver_poller_off cfg e w :
  Poller.intervalRef (poller w) = false →
  Poller.intervalRef (poller (deliver cfg e w)) = false ∧
  Poller.inFlight (poller (deliver cfg e w)) ≤ Poller.inFlight (poller w).
Proof.
  intros Hoff. destruct e as [i|i now frame|i|i| |t| |m|]; cbn [deliver].
  - destruct (socket_state w i) as [[]|]; done.
  - destruct (socket_state w i) as [[]|]; try done.
    destruct (handleMessage_hook cfg now frame w) as (_ & -> & _). done.
  - destruct (socket_state w i) as [[]|]; done.
  - destruct (Hook.sockets (hook w) !! i) as [k|]; [|done].
    destruct (Socket.readyState k); try done; unfold onclose;
      match goal with |- context [if ?b then _ else _] => destruct b end; done.
  - destruct (Hook.pingIntervalRef (hook w)); done.
  - destruct (Hook.timeouts (hook w) !! t); done.
  - rewrite Hoff. done.
  - destruct (Poller.inFlight (poller w)) eqn:E; [rewrite E; done|].
    cbn. rewrite E. cbn. split; [exact Hoff|lia].
  - destruct (Poller.inFlight (poller w)) eqn:E; [rewrite E; done|].
    cbn. rewrite E. cbn. split; [exact Hoff|lia].
Qed.

Lemma deliver_all_poller_off cfg es : ∀ w,
  Poller.intervalRef (poller w) = false →
  Poller.intervalRef (poller (deliver_all cfg es w)) = false ∧
  Poller.inFlight (poller (deliver_all cfg es w)) ≤ Poller.inFlight (poller w).
Proof.
  induction es as [|e es IH]; intros w Hoff; [done|].
  unfold deliver_all. simpl foldl. fold (deliver_all cfg es (deliver cfg e w)).
  destruct (deliver_poller_off cfg e w Hoff) as [Hoff' Hle'].
  destruct (IH (deliver cfg e w) Hoff') as [Hoff'' Hle''].
  split; [exact Hoff''|lia].
Qed.

Lemma leaked_timeout_reconnects cfg t c w :
  Hook.timeouts (hook w) !! t = Some c →
  Hook.reconnectTimeoutRef (hook w) ≠ Some t →
  let w' := deliver cfg (ReconnectTimeout t) (with_hook disconnect w) in
  Hook.sockets (hook w')
    = Hook.sockets (disconnect (hook w)) ++ [Socket.mk ReadyState.CONNECTING c] ∧
  Hook.wsRef (hook w') = Some (length (Hook.sockets (hook w))).
Proof.
  intros Ht Hr. cbn zeta. cbn [deliver].
  assert (Ht' : Hook.timeouts (hook (with_hook disconnect w)) !! t = Some c).
  { change (hook (with_hook disconnect w)) with (disconnect (hook w)).
    rewrite disconnect_timeouts.
    destruct (Hook.reconnectTimeoutRef (hook w)) as [t'|]; [|exact Ht].
    rewrite lookup_delete_ne by congruence. exact Ht. }
  rewrite Ht'. unfold with_hook. cbn [hook].
  unfold reconnectCallback.
  match goal with |- context [connect c ?h] => set (h2 := h) end.
  assert (Hs2 : Hook.sockets h2 = Hook.sockets (disconnect (hook w))) by reflexivity.
  assert (Hclosed : current_is_open h2 = false).
  { unfold current_is_open, current_readyState.
    replace (Hook.wsRef h2) with (Hook.wsRef (disconnect (hook w))) by reflexivity.
    destruct (disconnect_refs (hook w)) as (_ & _ & _ & -> & _). reflexivity. }
  destruct (connect_when_not_open c h2 Hclosed) as [Hs Hw].
  rewrite Hs, Hw, Hs2, disconnect_length. done.
Qed.

Lemma disconnect_and_disable_effects (cfg : WebSocketConfig.t) :
  (∀ h, Hook.pingIntervalRef (disconnect h) = false ∧
        Hook.reconnectTimeoutRef (disconnect h) = None ∧
        Hook.shouldReconnectRef (disconnect h) = false ∧
        Hook.wsRef (disconnect h) = None ∧
        Hook.state (disconnect h) = WebSocketState.initial) ∧
  (∀ w, deliver cfg PingInterval (with_hook disconnect w) = with_hook disconnect w) ∧
  (∀ t w, Hook.reconnectTimeoutRef (hook w) = Some t →
          deliver cfg (ReconnectTimeout t) (with_hook disconnect w)
            = with_hook disconnect w) ∧
  (∀ i w, let w1 := with_hook disconnect w in
          let w2 := deliver cfg (SocketClose i) w1 in
          Hook.timeouts (hook w2) = Hook.timeouts (hook w1) ∧
          length (Hook.sockets (hook w2)) = length (Hook.sockets (hook w1))) ∧
  (∀ sid w, let w1 := with_poller (disablePolling sid) w in
            Poller.intervalRef (poller w1) = false ∧
            deliver cfg PollInterval w1 = w1) ∧
  (∀ sid m w, Poller.inFlight (poller w) ≠ 0 →
              store (deliver cfg (FetchResolved m) (with_poller (disablePolling sid) w))
                = setAudioMetrics (Some m) (store w)) ∧
  (∀ i k w, Hook.wsRef (hook w) = Some i →
            Hook.sockets (hook w) !! i = Some k →
            Socket.readyState k ≠ ReadyState.CLOSED →
            store (deliver cfg (SocketClose i) (with_hook disconnect w))
              = default id (WebSocketConfig.onDisconnect cfg) (store w)).
Proof.
  split; [exact disconnect_refs|].
  split.
  { intros w. unfold deliver.
    replace (Hook.pingIntervalRef (hook (with_hook disconnect w))) with false;
      [reflexivity|]. symmetry. apply disconnect_refs. }
  split.
  { intros t w Ht. unfold deliver.
    replace (Hook.timeouts (hook (with_hook disconnect w)) !! t) with (@None Z);
      [reflexivity|].
    symmetry. change (hook (with_hook disconnect w)) with (disconnect (hook w)).
    rewrite disconnect_timeouts, Ht. apply lookup_delete_eq. }
  split.
  { intros i w. cbn zeta. cbn [deliver].
    destruct (Hook.sockets (hook (with_hook disconnect w)) !! i) as [k|] eqn:Hk;
      [|done].
    destruct (Socket.readyState k) eqn:Hr; try done;
      (edestruct (onclose_after_disconnect cfg (Socket.seenReconnectCount k)
                    (mark_socket ReadyState.CLOSED i (with_hook disconnect w)))
         as (Ht & Hs & _);
       [ apply disconnect_refs
       | rewrite Ht, Hs; simpl; rewrite length_alter; done ]). }
  split.
  { intros sid w. split; reflexivity. }
  split.
  { intros sid m w Hin. simpl.
    destruct (Poller.inFlight (poller w)); [done|reflexivity]. }
  intros i k w Hi Hk Hr. cbn [deliver].
  assert (Hk' : Hook.sockets (hook (with_hook disconnect w)) !! i
                = Some (Socket.close k)).
  { change (hook (with_hook disconnect w)) with (disconnect (hook w)).
    rewrite disconnect_sockets, Hi, list_lookup_alter_eq, Hk. reflexivity. }
  rewrite Hk'.
  assert (Hr' : Socket.readyState (Socket.close k) = ReadyState.CLOSING).
  { unfold Socket.close. destruct (Socket.readyState k) eqn:E; simpl; congruence. }
  rewrite Hr'.
  edestruct (onclose_after_disconnect cfg (Socket.seenReconnectCount (Socket.close k))
               (mark_socket ReadyState.CLOSED i (with_hook disconnect w)))
    as (_ & _ & _ & Hst); [apply disconnect_refs|].
  rewrite Hst. reflexivity.
Qed.

(** C5, as stated, fails.  The request the poller sent before it was
    switched off settles afterwards and its completion writes the audio
    view; the transport that [disconnect] closed delivers its close event
    afterwards and the handler runs the page's [onDisconnect], which
    writes the connection state; and a reconnect timeout that the ref no
    longer holds fires after [disconnect] and opens a transport. *)
Lemma callbacks_run_after_cancellation :
  (let w1 := with_poller (disablePolling "SESS_1"%string) pollingWorld in
   let w2 := deliver sampleConfig (FetchResolved sampleMetrics) w1 in
   Poller.intervalRef (poller w1) = false ∧
   AudioState.status (audio (store w1)) = AudioStatus.idle ∧
   AudioState.status (audio (store w2)) = AudioStatus.recording ∧
   audioMetrics (store w2) = Some sampleMetrics) ∧
  (let cfg := dashboardConfig "SESS_1"%string 1000 in
   let w1 := with_hook disconnect dashboardWorld in
   let w2 := deliver cfg (SocketClose 0) w1 in
   socket_state w1 0 = Some ReadyState.CLOSING ∧
   ConnectionState.isConnected (connection (store w1)) = true ∧
   ConnectionState.isConnected (connection (store w2)) = false) ∧
  (let w1 := with_hook disconnect leakedWorld in
   let w2 := deliver sampleConfig (ReconnectTimeout 0) w1 in
   Hook.wsRef (hook w1) = None ∧
   length (Hook.sockets (hook w1)) = 2 ∧
   WebSocketState.isConnecting (Hook.state (hook w1)) = false ∧
   length (Hook.sockets (hook w2)) = 3 ∧
   socket_state w2 2 = Some ReadyState.CONNECTING ∧
   Hook.wsRef (hook w2) = Some 2 ∧
   WebSocketState.isConnecting (Hook.state (hook w2)) = true).
Proof. vm_compute. repeat split. Qed.

(** C5, amended.  [disconnect] has, when it returns, removed the ping
    interval and the reconnect timeout it held, called [close()] on the
    current transport and forgotten it, reset the hook state and switched
    auto-reconnect off.  The next probe tick and the timeout that was
    cleared do nothing, and a close event that comes later schedules no
    reconnect and opens no transport.  When the timeout the ref held was
    the only one pending, this lasts: whatever events follow, no transport
    is current or opened, no probe is sent and no reconnect is scheduled.
    A reconnect timeout that the ref did not hold is not cleared: when it
    fires after [disconnect] it opens a transport.  Switching the poller
    off removes its interval, so that whatever events follow no further
    request is sent.  The callbacks already under way are not held back: a
    request in flight that settles afterwards still writes its metrics into
    the store, and the close event of the transport that was closed still
    runs [onDisconnect] on the store. *)
Theorem cancellation_stops_timers_only (cfg : WebSocketConfig.t) :
  (∀ h, Hook.pingIntervalRef (disconnect h) = false ∧
        Hook.reconnectTimeoutRef (disconnect h) = None ∧
        Hook.shouldReconnectRef (disconnect h) = false ∧
        Hook.wsRef (disconnect h) = None ∧
        Hook.state (disconnect h) = WebSocketState.initial) ∧
  (∀ w, deliver cfg PingInterval (with_hook disconnect w) = with_hook disconnect w) ∧
  (∀ t w, Hook.reconnectTimeoutRef (hook w) = Some t →
          deliver cfg (ReconnectTimeout t) (with_hook disconnect w)
            = with_hook disconnect w) ∧
  (∀ i w, let w1 := with_hook disconnect w in
          let w2 := deliver cfg (SocketClose i) w1 in
          Hook.timeouts (hook w2) = Hook.timeouts (hook w1) ∧
          length (Hook.sockets (hook w2)) = length (Hook.sockets (hook w1))) ∧
  (∀ sid w, let w1 := with_poller (disablePolling sid) w in
            Poller.intervalRef (poller w1) = false ∧
            deliver cfg PollInterval w1 = w1) ∧
  (∀ sid m w, Poller.inFlight (poller w) ≠ 0 →
              store (deliver cfg (FetchResolved m) (with_poller (disablePolling sid) w))
                = setAudioMetrics (Some m) (store w)) ∧
  (∀ i k w, Hook.wsRef (hook w) = Some i →
            Hook.sockets (hook w) !! i = Some k →
            Socket.readyState k ≠ ReadyState.CLOSED →
            store (deliver cfg (SocketClose i) (with_hook disconnect w))
              = default id (WebSocketConfig.onDisconnect cfg) (store w)) ∧
  (∀ h j, Hook.wsRef h = Some j →
          Hook.sockets (disconnect h) !! j = Socket.close <$> Hook.sockets h !! j) ∧
  (∀ es w, holds_every_timeout (hook w) →
           let w' := deliver_all cfg es (with_hook disconnect w) in
           quiescent (hook w') ∧
           sendMessage (hook w') = None ∧
           Hook.pings (hook w') = Hook.pings (hook w) ∧
           length (Hook.sockets (hook w')) = length (Hook.sockets (hook w))) ∧
  (∀ t c w, Hook.timeouts (hook w) !! t = Some c →
            Hook.reconnectTimeoutRef (hook w) ≠ Some t →
            let w' := deliver cfg (ReconnectTimeout t) (with_hook disconnect w) in
            Hook.sockets (hook w')
              = Hook.sockets (disconnect (hook w))
                ++ [Socket.mk ReadyState.CONNECTING c] ∧
            Hook.wsRef (hook w') = Some (length (Hook.sockets (hook w)))) ∧
  (∀ sid es w,
     let w' := deliver_all cfg es (with_poller (disablePolling sid) w) in
     Poller.intervalRef (poller w') = false ∧
     Poller.inFlight (poller w') ≤ Poller.inFlight (poller w)).
Proof.
  destruct (disconnect_and_disable_effects cfg)
    as (H1 & H2 & H3 & H4 & H5 & H6 & H7).
  split; [exact H1|]. split; [exact H2|]. split; [exact H3|].
  split; [exact H4|]. split; [exact H5|]. split; [exact H6|].
  split; [exact H7|].
  split; [|split; [|split]].
  - intros h j Hj. rewrite disconnect_sockets, Hj. apply list_lookup_alter_eq.
  - intros es w Hall. cbn zeta.
    destruct (deliver_all_quiescent cfg es (with_hook disconnect w)) as (Hq & Hp & Hl).
    { apply disconnect_quiescent, Hall. }
    split; [exact Hq|]. split; [apply quiescent_sendMessage, Hq|].
    split.
    + rewrite Hp. apply disconnect_pings.
    + rewrite Hl. apply disconnect_length.
  - intros t c w. apply leaked_timeout_reconnects.
  - intros sid es w. cbn zeta.
    apply (deliver_all_poller_off cfg es (with_poller (disablePolling sid) w)).
    reflexivity.
Qed.

Lemma cancellation_stops_timers_only_witness :
  (Hook.reconnectTimeoutRef (hook reconnectingWorld) = Some 0 ∧
   Hook.timeouts (hook reconnectingWorld) !! 0 = Some 0%Z ∧
   deliver sampleConfig (ReconnectTimeout 0) (with_hook disconnect reconnectingWorld)
     = with_hook disconnect reconnectingWorld) ∧
  (Poller.inFlight (poller pollingWorld) ≠ 0 ∧
   store (deliver sampleConfig (FetchResolved sampleMetrics)
            (with_poller (disablePolling "SESS_1"%string) pollingWorld))
     = setAudioMetrics (Some sampleMetrics) (store pollingWorld)) ∧
  (Hook.wsRef (hook dashboardWorld) = Some 0 ∧
   Hook.sockets (hook dashboardWorld) !! 0 = Some (Socket.mk ReadyState.OPEN 0) ∧
   store (deliver (dashboardConfig "SESS_1"%string 1000) (SocketClose 0)
            (with_hook disconnect dashboardWorld))
     = dashboard_onDisconnect (store dashboardWorld) ∧
   Hook.sockets (disconnect (hook dashboardWorld)) !! 0
     = Socket.close <$> Hook.sockets (hook dashboardWorld) !! 0) ∧
  (holds_every_timeout (hook reconnectingWorld) ∧
   (let w' := deliver_all sampleConfig afterDisconnectRun
                (with_hook disconnect reconnectingWorld) in
    quiescent (hook w') ∧
    sendMessage (hook w') = None ∧
    Hook.pings (hook w') = Hook.pings (hook reconnectingWorld) ∧
    length (Hook.sockets (hook w')) = length (Hook.sockets (hook reconnectingWorld)))) ∧
  (Hook.timeouts (hook leakedWorld) !! 0 = Some 0%Z ∧
   Hook.reconnectTimeoutRef (hook leakedWorld) ≠ Some 0 ∧
   Hook.wsRef (hook (deliver sampleConfig (ReconnectTimeout 0)
                       (with_hook disconnect leakedWorld)))
     = Some (length (Hook.sockets (hook leakedWorld)))).
Proof.
  assert (Ht : Hook.reconnectTimeoutRef (hook reconnectingWorld) = Some 0)
    by reflexivity.
  assert (Hin : Poller.inFlight (poller pollingWorld) ≠ 0) by (simpl; lia).
  assert (Hi : Hook.wsRef (hook dashboardWorld) = Some 0) by reflexivity.
  assert (Hk : Hook.sockets (hook dashboardWorld) !! 0
               = Some (Socket.mk ReadyState.OPEN 0)) by reflexivity.
  assert (Hr : Socket.readyState (Socket.mk ReadyState.OPEN 0) ≠ ReadyState.CLOSED)
    by discriminate.
  assert (Hall : holds_every_timeout (hook reconnectingWorld)).
  { intros t [c Hc].
    change (Hook.timeouts (hook reconnectingWorld))
      with (<[0%nat := 0%Z]> (∅ : gmap nat Z)) in Hc.
    destruct (decide (t = 0)) as [->|Hne]; [reflexivity|].
    rewrite lookup_insert_ne, lookup_empty in Hc by congruence. discriminate Hc. }
  assert (Hleak : Hook.timeouts (hook leakedWorld) !! 0 = Some 0%Z) by reflexivity.
  assert (Hnot : Hook.reconnectTimeoutRef (hook leakedWorld) ≠ Some 0) by discriminate.
  destruct (cancellation_stops_timers_only sampleConfig)
    as (_ & _ & Htimeout & _ & _ & Hfetch & _ & _ & Hquiet & Hleaked & _).
  destruct (cancellation_stops_timers_only (dashboardConfig "SESS_1"%string 1000))
    as (_ & _ & _ & _ & _ & _ & Hclose & Hclosed & _).
  split; [|split; [|split; [|split]]].
  - exact (conj Ht (conj eq_refl (Htimeout 0 reconnectingWorld Ht))).
  - exact (conj Hin (Hfetch "SESS_1"%string sampleMetrics pollingWorld Hin)).
  - exact (conj Hi (conj Hk (conj (Hclose 0 _ dashboardWorld Hi Hk Hr)
                                  (Hclosed (hook dashboardWorld) 0 Hi)))).
  - exact (conj Hall (Hquiet afterDisconnectRun reconnectingWorld Hall)).
  - exact (conj Hleak (conj Hnot
             (proj2 (Hleaked 0 0%Z leakedWorld Hleak Hnot)))).
Defined.
